(** * NPC day simulation (run.py): the rule gate, the effect engine and the hour loop

    A shallow embedding of [run.py].

    - Python [int] is [Z]: unbounded, no wrap-around.
    - [str] is [string], holding the UTF-8 bytes of the text.  Equality and
      containment ([in]) of valid UTF-8 texts are equality and containment
      of their bytes.
    - The float literals [1.0] and [0.5] are the rationals they denote
      exactly; no arithmetic is ever done on a confidence.
    - The [WORLD] dict is a [gmap] keyed by strings; a place's [actions]
      list and an entry's effect map keep their order.
    - The NPC objects that [simulate_day] mutates in place live in a heap
      addressed by references, so that a list naming one object twice
      behaves as it does in Python.
    - The reasoning collaborator and the random generator are an oracle
      indexed by hour and list position: any run of the program is the
      model under some oracle.
    - Printing is left out: it changes no state. *)

From Stdlib Require Import ZArith QArith Ascii String.
From stdpp Require Import gmap strings list pretty.

Set Warnings "-clear-no-such-hyp".

Open Scope Z_scope.

(** ** 1. Data structures *)

Module NPCState.
Record t := mk {
  id : string;
  name : string;
  money : Z;
  food : Z;
  rest : Z;
  location : string;
  current_hour : Z;
  daily_hours_worked : Z;
  action_history : list string;
  personality : string
}.

(** [NPCState(id=.., name=.., ...)] with the class defaults for the
    fields the caller leaves out. *)
Definition new (i n : string) (m f r : Z) (p : string) : t :=
  mk i n m f r "Home" 0 0 [] p.
End NPCState.

Module Action.
Record t := mk {
  npc_id : string;
  action : string;
  place : string;
  duration : Z;
  reason : string;
  confidence : Q
}.
End Action.

(** The integer fields an effect map can name; [getattr] and [setattr] on
    them never fail.  Every key of every effect map of [WORLD] is one of
    these. *)
Inductive stat := Money | Food | Rest.

#[global] Instance stat_eq_dec : EqDecision stat.
Proof. solve_decision. Defined.

(** One dict of a place's [actions] list: keys "name", "effects" (in
    insertion order) and "duration". *)
Module Act.
Record t := mk {
  name : string;
  effects : list (stat * Z);
  duration : Z
}.
End Act.

Module Place.
Record t := mk {
  name : string;
  actions : list Act.t
}.
End Place.

(** ** 2. World *)

Definition food_store : Place.t :=
  Place.mk "Food Store"
    [ Act.mk "eating" [(Food, 100); (Money, -60)] 1;
      Act.mk "parttime" [(Money, 20); (Food, -5); (Rest, -5)] 1;
      Act.mk "shopping" [(Money, -5)] 1 ].

Definition wooden_factory : Place.t :=
  Place.mk "Wooden Factory"
    [ Act.mk "fulltime" [(Money, 20); (Food, -5); (Rest, -5)] 1;
      Act.mk "chat" [(Rest, 5)] 1 ].

Definition home : Place.t :=
  Place.mk "Home"
    [ Act.mk "sleep" [(Rest, 40)] 1;
      Act.mk "relax" [(Rest, 15)] 1 ].

Definition park : Place.t :=
  Place.mk "Park"
    [ Act.mk "walk" [(Rest, -0); (Food, -5)] 1 ].

Definition WORLD_items : list (string * Place.t) :=
  [ ("food_store", food_store);
    ("wooden_factory", wooden_factory);
    ("home", home);
    ("park", park) ].

Definition WORLD : gmap string Place.t := list_to_map WORLD_items.

(** ** 3. Hybrid decision: the hard rules *)

(** [f"{n}"] for an [int]: decimal digits, a leading minus sign when
    negative. *)
Definition str_of_int (z : Z) : string := pretty z.

(** The warning sign that opens each forced reason (U+1F6A8, four bytes
    of UTF-8). *)
Definition siren : string := "🚨".

Definition hybrid_decision (npc : NPCState.t) : option Action.t :=
  if NPCState.food npc <? 15 then
    Some (Action.mk (NPCState.id npc) "eating" "Food Store" 1
            (siren +:+ " Survival baseline: food=" +:+ str_of_int (NPCState.food npc)
               +:+ " < 15, forced eating") 1%Q)
  else if NPCState.rest npc <? 20 then
    Some (Action.mk (NPCState.id npc) "sleep" "Home" 1
            (siren +:+ " Survival baseline: rest=" +:+ str_of_int (NPCState.rest npc)
               +:+ " < 20, forced sleep") 1%Q)
  else if NPCState.money npc <? 5 then
    Some (Action.mk (NPCState.id npc) "parttime" "Food Store" 1
            (siren +:+ " Bankruptcy protection: money=" +:+ str_of_int (NPCState.money npc)
               +:+ " < 5, emergency work") 1%Q)
  else None.

(** ** 4. State update *)

(** Field assignment, [npc.f = v]. *)
Module Set_.
Import NPCState.
Definition money (v : Z) (n : t) : t :=
    mk (id n) (name n) v (food n) (rest n) (location n) (current_hour n)
       (daily_hours_worked n) (action_history n) (personality n).
Definition food (v : Z) (n : t) : t :=
    mk (id n) (name n) (NPCState.money n) v (rest n) (location n) (current_hour n)
       (daily_hours_worked n) (action_history n) (personality n).
Definition rest (v : Z) (n : t) : t :=
    mk (id n) (name n) (NPCState.money n) (NPCState.food n) v (location n)
       (current_hour n) (daily_hours_worked n) (action_history n) (personality n).
Definition location (v : string) (n : t) : t :=
    mk (id n) (name n) (NPCState.money n) (NPCState.food n) (NPCState.rest n) v
       (current_hour n) (daily_hours_worked n) (action_history n) (personality n).
Definition current_hour (v : Z) (n : t) : t :=
    mk (id n) (name n) (NPCState.money n) (NPCState.food n) (NPCState.rest n)
       (NPCState.location n) v (daily_hours_worked n) (action_history n)
       (personality n).
Definition daily_hours_worked (v : Z) (n : t) : t :=
    mk (id n) (name n) (NPCState.money n) (NPCState.food n) (NPCState.rest n)
       (NPCState.location n) (NPCState.current_hour n) v (action_history n)
       (personality n).
Definition action_history (v : list string) (n : t) : t :=
    mk (id n) (name n) (NPCState.money n) (NPCState.food n) (NPCState.rest n)
       (NPCState.location n) (NPCState.current_hour n)
       (NPCState.daily_hours_worked n) v (personality n).
End Set_.

Definition getattr (npc : NPCState.t) (s : stat) : Z :=
  match s with
  | Money => NPCState.money npc
  | Food => NPCState.food npc
  | Rest => NPCState.rest npc
  end.

Definition setattr (npc : NPCState.t) (s : stat) (v : Z) : NPCState.t :=
  match s with
  | Money => Set_.money v npc
  | Food => Set_.food v npc
  | Rest => Set_.rest v npc
  end.

(** [str.lower], as far as a lookup in [WORLD] can tell.  Strings are the
    UTF-8 bytes of the Python text.  The ASCII capitals are lower-cased.
    The Kelvin sign U+212A (bytes 226 132 170) is the one character outside
    ASCII that Python lower-cases to plain ASCII text, the letter k.  Every
    other character outside ASCII lower-cases to text that is not plain
    ASCII, which no key of [WORLD] contains; its bytes are kept. *)
Definition lower_char (c : ascii) : ascii :=
  let n := N_of_ascii c in
  if ((65 <=? n) && (n <=? 90))%N then ascii_of_N (n + 32) else c.

Fixpoint str_lower (s : string) : string :=
  match s with
  | EmptyString => EmptyString
  | String "226" (String "132" (String "170" s')) => String "k" (str_lower s')
  | String c s' => String (lower_char c) (str_lower s')
  end.

(** [s.replace(old, new)] for one-character [old] and [new]. *)
Fixpoint str_replace (old new : ascii) (s : string) : string :=
  match s with
  | EmptyString => EmptyString
  | String c s' =>
      String (if Ascii.eqb c old then new else c) (str_replace old new s')
  end.

(** [sub in s] on strings: [sub] occurs in [s] as a contiguous run. *)
Fixpoint str_in (sub s : string) : bool :=
  String.prefix sub s ||
  match s with
  | EmptyString => false
  | String _ s' => str_in sub s'
  end.

Definition place_key (action : Action.t) : string :=
  str_replace " " "_" (str_lower (Action.place action)).

(** The test of the search loop: [act["name"] == action.action or
    act["name"] in action.action]. *)
Definition act_matches (act : Act.t) (proposed : string) : bool :=
  String.eqb (Act.name act) proposed || str_in (Act.name act) proposed.

(** The [for act in place.actions: ... break] loop: the first entry that
    passes the test, or [None]. *)
Fixpoint find_action (acts : list Act.t) (proposed : string) : option Act.t :=
  match acts with
  | [] => None
  | act :: acts' =>
      if act_matches act proposed then Some act else find_action acts' proposed
  end.

Definition clamp (v : Z) : Z := Z.max 0 (Z.min 200 v).

(** The loop over [place_action["effects"].items()]. *)
Definition apply_effects (effects : list (stat * Z)) (npc : NPCState.t) : NPCState.t :=
  fold_left
    (fun npc '(s, change) => setattr npc s (clamp (getattr npc s + change)))
    effects npc.

Definition is_work (act : Act.t) : bool :=
  bool_decide (Act.name act ∈ ["fulltime"; "parttime"]).

Definition history_token (npc : NPCState.t) (act : Act.t) : string :=
  "H" +:+ str_of_int (NPCState.current_hour npc) +:+ ":" +:+ Act.name act.

(** The part of [apply_action] after a catalogue entry was found. *)
Definition perform (npc : NPCState.t) (action : Action.t) (place_action : Act.t)
  : NPCState.t :=
  let npc := apply_effects (Act.effects place_action) npc in
  let npc := Set_.location (Action.place action) npc in
  let npc :=
    if is_work place_action
    then Set_.daily_hours_worked
           (NPCState.daily_hours_worked npc + Act.duration place_action) npc
    else npc in
  Set_.action_history
    (NPCState.action_history npc ++ [history_token npc place_action]) npc.

(** What the two lookups of [apply_action] end with: the catalogue entry
    to execute, or [None] on either of the two early returns. *)
Definition resolve (action : Action.t) : option Act.t :=
  match WORLD !! place_key action with
  | None => None
  | Some place => find_action (Place.actions place) (Action.action action)
  end.

Definition apply_action (npc : NPCState.t) (action : Action.t) : NPCState.t :=
  match WORLD !! place_key action with
  | None => npc
  | Some place =>
      match find_action (Place.actions place) (Action.action action) with
      | None => npc
      | Some place_action => perform npc action place_action
      end
  end.

Definition max_npc : NPCState.t := NPCState.new "npc1" "Max" 50 50 50 "workaholic".

(** ** 5. Main loop *)

(** The NPC objects live in a heap; [simulate_day] receives a list of
    references to them and mutates the objects in place. *)
Abbreviation heap := (gmap nat NPCState.t).

(** What the program cannot decide by itself in one run: the reply of the
    reasoning collaborator ([None] when anything in the [try] block raises)
    and the index [random.choice] draws, for the NPC at position [i] of the
    list in hour [hour]. *)
Record Collaborator := {
  kickoff : Z -> nat -> NPCState.t -> option Action.t;
  draw : Z -> nat -> nat
}.

(** [for npc in npcs: body(npc)], the body run on the object each
    reference names; [i] counts the iterations. *)
Fixpoint for_each_from (i : nat) (npcs : list nat)
    (body : nat -> NPCState.t -> NPCState.t) (h : heap) : heap :=
  match npcs with
  | [] => h
  | r :: npcs' => for_each_from (S i) npcs' body (alter (body i) r h)
  end.

Definition for_each := for_each_from 0.

Definition new_day (npc : NPCState.t) : NPCState.t :=
  Set_.daily_hours_worked 0 npc.

Definition metabolism (npc : NPCState.t) : NPCState.t :=
  let npc := Set_.food (Z.max 0 (NPCState.food npc - 5)) npc in
  Set_.rest (Z.max 0 (NPCState.rest npc - 5)) npc.

Definition fallback_actions : list string := ["sleep"; "eating"; "relax"; "walk"].

(** [random.choice(seq)] when the generator draws index [k]. *)
Definition random_choice (seq : list string) (k : nat) : string :=
  default "" (seq !! (k mod length seq)%nat).

Definition fallback_action (npc : NPCState.t) (k : nat) : Action.t :=
  let random_action := random_choice fallback_actions k in
  Action.mk (NPCState.id npc) random_action
    (if bool_decide (random_action ∈ ["sleep"; "relax"]) then "Home" else "Park")
    1 "Random choice" (1 # 2)%Q.

(** The body of the decision loop for one NPC. *)
Definition decide_and_act (o : Collaborator) (hour : Z) (i : nat)
    (npc : NPCState.t) : NPCState.t :=
  let npc := Set_.current_hour hour npc in
  match hybrid_decision npc with
  | Some forced_action => apply_action npc forced_action
  | None =>
      match kickoff o hour i npc with
      | Some action => apply_action npc action
      | None => apply_action npc (fallback_action npc (draw o hour i))
      end
  end.

Definition start_of_hour (npcs : list nat) (hour : Z) (h : heap) : heap :=
  if bool_decide (hour = 0) then for_each npcs (fun _ => new_day) h else h.

Definition simulate_hour (o : Collaborator) (npcs : list nat) (h : heap) (hour : Z)
  : heap :=
  let h := start_of_hour npcs hour h in
  let h := for_each npcs (fun _ => metabolism) h in
  for_each npcs (decide_and_act o hour) h.

(** [for hour in range(hours)]. *)
Definition simulate_day (o : Collaborator) (npcs : list nat) (hours : Z) (h : heap)
  : heap :=
  fold_left (simulate_hour o npcs) (seqZ 0 hours) h.

(** The end-of-day statistic
    [len(set(npc.action_history)) / max(1, len(npc.action_history))], as the
    exact quotient of the two integers. *)
Definition diversity (npc : NPCState.t) : Q :=
  inject_Z (Z.of_nat (length (remove_dups (NPCState.action_history npc))))
  / inject_Z (Z.max 1 (Z.of_nat (length (NPCState.action_history npc)))).

(** A collaborator that always proposes a walk in the park. *)
Definition walker : Collaborator :=
  {| kickoff := fun _ _ npc =>
       Some (Action.mk (NPCState.id npc) "walk" "Park" 1 "fresh air" (17 # 20)%Q);
     draw := fun _ _ => 0%nat |}.

(** A collaborator whose every call fails, with a generator that draws
    index 1. *)
Definition silent : Collaborator :=
  {| kickoff := fun _ _ _ => None; draw := fun _ _ => 1%nat |}.

Definition max_after_day : option NPCState.t :=
  simulate_day walker [0%nat] 24 {[ 0%nat := max_npc ]} !! 0%nat.

(** ** 6. Vocabulary of the properties *)

(** [sub] occurs in [s] as a contiguous run of characters. *)
Definition occurs_in (sub s : string) : Prop :=
  exists pre post, s = pre +:+ sub +:+ post.

(** The test of the search loop as the specification words it: equal
    names, or the proposed name occurring inside the catalogue name. *)
Definition spec_matches (act : Act.t) (proposed : string) : bool :=
  String.eqb (Act.name act) proposed || str_in proposed (Act.name act).

(** Every catalogue entry of the world, place after place: the entries
    [create_ai_decision_task] lists as available. *)
Definition WORLD_actions : list Act.t :=
  WORLD_items ≫= (fun item => Place.actions item.2).

Definition in_range (v : Z) : Prop := 0 <= v <= 200.

Definition resources_in_range (npc : NPCState.t) : Prop :=
  in_range (NPCState.money npc) /\ in_range (NPCState.food npc)
  /\ in_range (NPCState.rest npc).

(** Every object of the heap has its three counters in [0, 200]. *)
Definition heap_in_range (h : heap) : Prop :=
  forall r npc, h !! r = Some npc -> resources_in_range npc.

(** The action name a history token ["H<hour>:<name>"] carries: what
    follows the first colon. *)
Fixpoint token_action (token : string) : string :=
  match token with
  | EmptyString => EmptyString
  | String c token' => if Ascii.eqb c ":" then token' else token_action token'
  end.

(** The distinct action names of a history. *)
Definition distinct_actions (history : list string) : list string :=
  remove_dups (token_action <$> history).

(** The rule gate forces [action] at [place] on [npc]: it returns an
    Action for this NPC with confidence 1.0 and duration 1. *)
Definition forces (npc : NPCState.t) (action place : string) : Prop :=
  exists a, hybrid_decision npc = Some a
    /\ Action.npc_id a = NPCState.id npc
    /\ Action.action a = action
    /\ Action.place a = place
    /\ Action.duration a = 1
    /\ Action.confidence a = 1%Q.

(** The fields no effect map can name. *)
Definition bystanders (npc : NPCState.t)
  : string * string * string * Z * Z * list string * string :=
  (NPCState.id npc, NPCState.name npc, NPCState.location npc,
   NPCState.current_hour npc, NPCState.daily_hours_worked npc,
   NPCState.action_history npc, NPCState.personality npc).

(** The test of the search loop in words: equal names, or the catalogue
    name occurring inside the proposed name. *)
Definition name_matches (act : Act.t) (proposed : string) : Prop :=
  Act.name act = proposed \/ occurs_in (Act.name act) proposed.

(** The heap between the metabolism loop and the decision loop of an
    hour. *)
Definition after_metabolism (npcs : list nat) (hour : Z) (h : heap) : heap :=
  for_each npcs (fun _ => metabolism) (start_of_hour npcs hour h).

Definition lunch_proposal : Action.t :=
  Action.mk "npc1" "eating lunch" "Food Store" 1 "noon" (9 # 10)%Q.

Definition moon_trip : Action.t :=
  Action.mk "npc1" "walk" "Moon" 1 "far away" (1 # 2)%Q.

Definition eat_proposal : Action.t :=
  Action.mk "npc1" "eat" "Food Store" 1 "hungry" (9 # 10)%Q.

Definition hungry_max : NPCState.t := NPCState.new "npc1" "Max" 50 10 50 "workaholic".
Definition tired_max : NPCState.t := NPCState.new "npc1" "Max" 50 50 10 "workaholic".
Definition broke_max : NPCState.t := NPCState.new "npc1" "Max" 3 50 50 "workaholic".

(** ** 7. The rest of the program *)

(** One dict of [available_actions], the catalogue that
    [create_ai_decision_task] hands to the collaborator: keys "place",
    "action", "effects" and "duration". *)
Module Offer.
Record t := mk {
  place : string;
  action : string;
  effects : list (stat * Z);
  duration : Z
}.
End Offer.

(** The two nested loops of [create_ai_decision_task] over
    [WORLD.items()] and [place.actions]; a dict lists its items in
    insertion order. *)
Definition available_actions : list Offer.t :=
  WORLD_items ≫= (fun item =>
    (fun act => Offer.mk (Place.name item.2) (Act.name act) (Act.effects act)
                  (Act.duration act)) <$> Place.actions item.2).

(** The marks of the two reports of [simulate_day]. *)
Definition skull : string := "💀".
Definition check_mark : string := "✅".

(** [hour % 6 == 5]: the hours that end with the six-hour report. *)
Definition statistics_due (hour : Z) : bool := hour mod 6 =? 5.

(** ["💀" if npc.food < 10 or npc.rest < 10 else "✅"]. *)
Definition six_hour_mark (npc : NPCState.t) : string :=
  if (NPCState.food npc <? 10) || (NPCState.rest npc <? 10) then skull
  else check_mark.

(** ["✅" if npc.food > 0 and npc.rest > 0 else "💀"]. *)
Definition day_end_mark (npc : NPCState.t) : string :=
  if (0 <? NPCState.food npc) && (0 <? NPCState.rest npc) then check_mark
  else skull.

(** The three NPCs of the entry point, as a heap and the list of
    references handed to [simulate_day]. *)
Definition main_heap : heap :=
  {[ 0%nat := NPCState.new "npc1" "Max" 50 50 50 "workaholic";
     1%nat := NPCState.new "npc2" "Alice" 50 50 50 "lazy";
     2%nat := NPCState.new "npc3" "Bob" 50 50 50 "foodie" ]}.

Definition main_npcs : list nat := [0%nat; 1%nat; 2%nat].

(** ** 8. Vocabulary of the further properties *)

(** What one hour does to the NPC at position [i] of a list that names
    every object once: the three loop bodies in a row. *)
Definition npc_hour (o : Collaborator) (i : nat) (npc : NPCState.t) (hour : Z)
  : NPCState.t :=
  decide_and_act o hour i
    (metabolism (if bool_decide (hour = 0) then new_day npc else npc)).

Definition npc_day (o : Collaborator) (i : nat) (hours : Z) (npc : NPCState.t)
  : NPCState.t :=
  fold_left (npc_hour o i) (seqZ 0 hours) npc.

(** [npc.personality = p]. *)
Definition with_personality (p : string) (n : NPCState.t) : NPCState.t :=
  NPCState.mk (NPCState.id n) (NPCState.name n) (NPCState.money n)
    (NPCState.food n) (NPCState.rest n) (NPCState.location n)
    (NPCState.current_hour n) (NPCState.daily_hours_worked n)
    (NPCState.action_history n) p.

(** The NPC keeps its identity and its past: same id, name and
    personality, and the earlier history is a prefix of the later one. *)
Definition continues (npc npc' : NPCState.t) : Prop :=
  NPCState.id npc' = NPCState.id npc
  /\ NPCState.name npc' = NPCState.name npc
  /\ NPCState.personality npc' = NPCState.personality npc
  /\ NPCState.action_history npc `prefix_of` NPCState.action_history npc'.

(** The token written in hour [hour] for the entry named [name]. *)
Definition token_of (hour : Z) (name : string) : string :=
  "H" +:+ str_of_int hour +:+ ":" +:+ name.

(** No colon among the characters of [s]. *)
Fixpoint colon_free (s : string) : bool :=
  match s with
  | EmptyString => true
  | String c s' => negb (Ascii.eqb c ":") && colon_free s'
  end.

(** An Action that takes place and action name from a catalogue offer. *)
Definition propose (offer : Offer.t) (npc : NPCState.t) (reason : string)
    (confidence : Q) : Action.t :=
  Action.mk (NPCState.id npc) (Offer.action offer) (Offer.place offer)
    (Offer.duration offer) reason confidence.

(** * Properties *)

(** ** Scenarios *)

Example siren_bytes : String.length siren = 4%nat.
Proof. reflexivity. Qed.

Example str_of_int_neg : str_of_int (-35) = "-35".
Proof. vm_compute. reflexivity. Qed.

Example hybrid_decision_hungry :
  hybrid_decision hungry_max
  = Some (Action.mk "npc1" "eating" "Food Store" 1
            (siren +:+ " Survival baseline: food=10 < 15, forced eating") 1%Q).
Proof. vm_compute. reflexivity. Qed.

Example hybrid_decision_safe : hybrid_decision max_npc = None.
Proof. reflexivity. Qed.

Example apply_eating :
  apply_action hungry_max (Action.mk "npc1" "eating" "Food Store" 1 "r" 1%Q)
  = NPCState.mk "npc1" "Max" 0 110 50 "Food Store" 0 0 ["H0:eating"] "workaholic".
Proof. vm_compute. reflexivity. Qed.

Example apply_sleep :
  apply_action tired_max (Action.mk "npc1" "sleep" "Home" 1 "r" 1%Q)
  = NPCState.mk "npc1" "Max" 50 50 50 "Home" 0 0 ["H0:sleep"] "workaholic".
Proof. vm_compute. reflexivity. Qed.

Example apply_parttime :
  apply_action broke_max (Action.mk "npc1" "parttime" "Food Store" 1 "r" 1%Q)
  = NPCState.mk "npc1" "Max" 23 45 45 "Food Store" 0 1 ["H0:parttime"] "workaholic".
Proof. vm_compute. reflexivity. Qed.

Example apply_loose_name :
  apply_action max_npc (Action.mk "npc1" "eating lunch" "food store" 1 "r" 1%Q)
  = NPCState.mk "npc1" "Max" 0 150 50 "food store" 0 0 ["H0:eating"] "workaholic".
Proof. vm_compute. reflexivity. Qed.

Example place_key_kelvin :
  place_key (Action.mk "npc1" "walk" "PARK" 1 "r" 1%Q) = "park".
Proof. reflexivity. Qed.

Example place_key_factory :
  place_key (Action.mk "npc1" "chat" "Wooden Factory" 1 "r" 1%Q) = "wooden_factory".
Proof. reflexivity. Qed.

Example max_day_history :
  NPCState.action_history <$> max_after_day
  = Some ["H0:walk"; "H1:walk"; "H2:walk"; "H3:walk"; "H4:eating"; "H5:parttime";
          "H6:sleep"; "H7:walk"; "H8:walk"; "H9:walk"; "H10:walk"; "H11:walk";
          "H12:walk"; "H13:sleep"; "H14:walk"; "H15:eating"; "H16:parttime";
          "H17:walk"; "H18:walk"; "H19:walk"; "H20:sleep"; "H21:walk"; "H22:walk";
          "H23:walk"].
Proof. vm_compute. reflexivity. Qed.

(** ** Strings *)

Lemma prefix_cons (a b : ascii) (sub s : string) :
  String.prefix (String a sub) (String b s)
  = if ascii_dec a b then String.prefix sub s else false.
Proof. reflexivity. Qed.

Lemma append_cons (a : ascii) (s t : string) :
  String a s +:+ t = String a (s +:+ t).
Proof. reflexivity. Qed.

Lemma append_nil_l (s : string) : "" +:+ s = s.
Proof. reflexivity. Qed.

Lemma prefix_app (sub s : string) :
  String.prefix sub s = true <-> exists post, s = sub +:+ post.
Proof.
  revert s; induction sub as [|a sub IH]; intros s.
  - split; [intros _; exists s; reflexivity | intros _; destruct s; reflexivity].
  - destruct s as [|b s].
    + split; [discriminate | intros [post H]; discriminate].
    + rewrite prefix_cons. destruct (ascii_dec a b) as [->|Hne].
      * rewrite IH. split; intros [post H]; exists post.
        -- rewrite append_cons; congruence.
        -- rewrite append_cons in H; congruence.
      * split; [discriminate |].
        intros [post H]; rewrite append_cons in H; congruence.
Qed.

Lemma str_in_nil (sub : string) : str_in sub "" = String.prefix sub "".
Proof. unfold str_in. apply orb_false_r. Qed.

Lemma str_in_cons (sub : string) (c : ascii) (s : string) :
  str_in sub (String c s) = String.prefix sub (String c s) || str_in sub s.
Proof. reflexivity. Qed.

Lemma str_in_occurs (sub s : string) :
  str_in sub s = true <-> occurs_in sub s.
Proof.
  unfold occurs_in. induction s as [|c s IH].
  - rewrite str_in_nil, prefix_app. split.
    + intros [post H]; exists "", post; exact H.
    + intros [[|? ?] [post H]]; [exists post; exact H | discriminate].
  - rewrite str_in_cons, orb_true_iff, prefix_app, IH. split.
    + intros [[post H] | (pre & post & H)].
      * exists "", post; exact H.
      * exists (String c pre), post; rewrite append_cons; congruence.
    + intros ([|a pre] & post & H).
      * left; exists post; exact H.
      * right; exists pre, post; rewrite append_cons in H; congruence.
Qed.


Lemma act_matches_occurs (act : Act.t) (proposed : string) :
  act_matches act proposed = true
  <-> Act.name act = proposed \/ occurs_in (Act.name act) proposed.
Proof.
  unfold act_matches. rewrite orb_true_iff, String.eqb_eq, str_in_occurs. tauto.
Qed.


(** ** The world table *)

Lemma WORLD_lookup (key : string) (place : Place.t) :
  WORLD !! key = Some place -> (key, place) ∈ WORLD_items.
Proof. apply elem_of_list_to_map_2. Qed.

Lemma WORLD_lookup_actions (key : string) (place : Place.t) (act : Act.t) :
  WORLD !! key = Some place -> act ∈ Place.actions place -> act ∈ WORLD_actions.
Proof.
  intros Hk Ha. apply WORLD_lookup in Hk.
  unfold WORLD_actions. apply list_elem_of_bind. exists (key, place). auto.
Qed.

Lemma WORLD_durations : Forall (fun act => Act.duration act = 1) WORLD_actions.
Proof. repeat constructor. Qed.

(** ** The search loop *)

Lemma find_action_None (acts : list Act.t) (proposed : string) :
  find_action acts proposed = None
  <-> Forall (fun act => act_matches act proposed = false) acts.
Proof.
  induction acts as [|act acts IH]; simpl.
  - split; [constructor | reflexivity].
  - destruct (act_matches act proposed) eqn:E.
    + split; [discriminate | intros H; inversion H; congruence].
    + rewrite IH. split; [constructor; assumption | intros H; inversion H; assumption].
Qed.

Lemma find_action_Some (acts : list Act.t) (proposed : string) (pa : Act.t) :
  find_action acts proposed = Some pa
  <-> exists before after,
        acts = before ++ pa :: after
        /\ act_matches pa proposed = true
        /\ Forall (fun act => act_matches act proposed = false) before.
Proof.
  induction acts as [|act acts IH]; simpl.
  - split; [discriminate | intros ([|? ?] & ? & ? & _); discriminate].
  - destruct (act_matches act proposed) eqn:E.
    + split.
      * intros [= <-]. exists [], acts. repeat split; [assumption | constructor].
      * intros ([|b before] & after & Heq & Hm & Hb); simplify_eq/=; [reflexivity |].
        inversion Hb; congruence.
    + rewrite IH. split.
      * intros (before & after & -> & Hm & Hb).
        exists (act :: before), after. repeat split; [assumption | constructor; assumption].
      * intros ([|b before] & after & Heq & Hm & Hb); simplify_eq/=; [congruence |].
        exists before, after. inversion Hb; auto.
Qed.

Lemma find_action_elem (acts : list Act.t) (proposed : string) (pa : Act.t) :
  find_action acts proposed = Some pa -> pa ∈ acts /\ act_matches pa proposed = true.
Proof.
  intros (before & after & -> & Hm & _)%find_action_Some. split; [set_solver | exact Hm].
Qed.

Lemma resolve_Some (action : Action.t) (pa : Act.t) :
  resolve action = Some pa
  <-> exists place, WORLD !! place_key action = Some place
        /\ find_action (Place.actions place) (Action.action action) = Some pa.
Proof.
  unfold resolve. destruct (WORLD !! place_key action) as [place|].
  - split; [intros H; exists place; auto | intros (? & [= <-] & H); exact H].
  - split; [discriminate | intros (? & ? & _); discriminate].
Qed.

Lemma resolve_None (action : Action.t) :
  resolve action = None
  <-> WORLD !! place_key action = None
      \/ exists place, WORLD !! place_key action = Some place
           /\ find_action (Place.actions place) (Action.action action) = None.
Proof.
  unfold resolve. destruct (WORLD !! place_key action) as [place|].
  - split; [intros H; right; exists place; auto |].
    intros [? | (? & [= <-] & H)]; [discriminate | exact H].
  - split; [left; reflexivity | reflexivity].
Qed.

Lemma resolve_catalogue (action : Action.t) (pa : Act.t) :
  resolve action = Some pa -> pa ∈ WORLD_actions.
Proof.
  intros (place & Hk & [Hin _]%find_action_elem)%resolve_Some.
  eapply WORLD_lookup_actions; eassumption.
Qed.

Lemma apply_action_resolve (npc : NPCState.t) (action : Action.t) :
  apply_action npc action
  = match resolve action with
    | Some place_action => perform npc action place_action
    | None => npc
    end.
Proof.
  unfold apply_action, resolve. destruct (WORLD !! place_key action); reflexivity.
Qed.

(** ** The effect loop *)

Lemma clamp_in_range (v : Z) : in_range (clamp v).
Proof. unfold in_range, clamp. lia. Qed.

Lemma getattr_setattr (npc : NPCState.t) (s : stat) (v : Z) :
  getattr (setattr npc s v) s = v.
Proof. destruct s; reflexivity. Qed.

Lemma getattr_setattr_ne (npc : NPCState.t) (s s' : stat) (v : Z) :
  s <> s' -> getattr (setattr npc s v) s' = getattr npc s'.
Proof. destruct s, s'; intros H; try reflexivity; congruence. Qed.

Lemma setattr_bystanders (npc : NPCState.t) (s : stat) (v : Z) :
  bystanders (setattr npc s v) = bystanders npc.
Proof. destruct s; reflexivity. Qed.

Lemma apply_effects_cons (s : stat) (change : Z) (effects : list (stat * Z))
    (npc : NPCState.t) :
  apply_effects ((s, change) :: effects) npc
  = apply_effects effects (setattr npc s (clamp (getattr npc s + change))).
Proof. reflexivity. Qed.

Lemma apply_effects_bystanders (effects : list (stat * Z)) (npc : NPCState.t) :
  bystanders (apply_effects effects npc) = bystanders npc.
Proof.
  revert npc; induction effects as [|[s change] effects IH]; intros npc.
  - reflexivity.
  - rewrite apply_effects_cons, IH. apply setattr_bystanders.
Qed.

Lemma apply_effects_untouched (effects : list (stat * Z)) (npc : NPCState.t)
    (s : stat) :
  s ∉ effects.*1 -> getattr (apply_effects effects npc) s = getattr npc s.
Proof.
  revert npc; induction effects as [|[s0 change] effects IH]; intros npc Hs.
  - reflexivity.
  - rewrite apply_effects_cons, IH by set_solver.
    apply getattr_setattr_ne. set_solver.
Qed.

Lemma apply_effects_touched (effects : list (stat * Z)) (npc : NPCState.t)
    (s : stat) :
  s ∈ effects.*1 -> in_range (getattr (apply_effects effects npc) s).
Proof.
  revert npc; induction effects as [|[s0 change] effects IH]; intros npc Hs.
  - set_solver.
  - rewrite apply_effects_cons.
    destruct (decide (s ∈ effects.*1)) as [Hin|Hout]; [apply IH, Hin |].
    rewrite apply_effects_untouched by exact Hout.
    assert (s = s0) as -> by set_solver.
    rewrite getattr_setattr. apply clamp_in_range.
Qed.

Lemma apply_effects_in_range (effects : list (stat * Z)) (npc : NPCState.t)
    (s : stat) :
  in_range (getattr npc s) -> in_range (getattr (apply_effects effects npc) s).
Proof.
  intros H. destruct (decide (s ∈ effects.*1)) as [Hin|Hout].
  - apply apply_effects_touched, Hin.
  - rewrite apply_effects_untouched by exact Hout. exact H.
Qed.

(** [perform] field by field. *)
Lemma perform_getattr (npc : NPCState.t) (action : Action.t) (pa : Act.t) (s : stat) :
  getattr (perform npc action pa) s = getattr (apply_effects (Act.effects pa) npc) s.
Proof. unfold perform. destruct (is_work pa), s; reflexivity. Qed.

Lemma perform_bystanders (npc : NPCState.t) (action : Action.t) (pa : Act.t) :
  bystanders (perform npc action pa)
  = (NPCState.id npc, NPCState.name npc, Action.place action,
     NPCState.current_hour npc,
     if is_work pa then NPCState.daily_hours_worked npc + Act.duration pa
     else NPCState.daily_hours_worked npc,
     NPCState.action_history npc ++ [history_token npc pa],
     NPCState.personality npc).
Proof.
  pose proof (apply_effects_bystanders (Act.effects pa) npc) as H.
  unfold bystanders in H. injection H as Hid Hname _ Hhour Hwork Hhist Hpers.
  unfold perform, bystanders, history_token.
  destruct (is_work pa); simpl; rewrite ?Hid, ?Hname, ?Hhour, ?Hwork, ?Hhist, ?Hpers;
    reflexivity.
Qed.

Lemma is_work_names (pa : Act.t) :
  is_work pa = true <-> Act.name pa = "fulltime" \/ Act.name pa = "parttime".
Proof.
  unfold is_work. rewrite bool_decide_eq_true. set_solver.
Qed.

(** ** The rule gate *)

(** C1.  For every NPC state the three thresholds are tried in strict
    priority order: food < 15 forces eating at Food Store; otherwise
    rest < 20 forces sleep at Home; otherwise money < 5 forces parttime at
    Food Store; each forced action has confidence 1.0 and duration 1; when
    all three thresholds pass the gate returns None. *)
Theorem hybrid_decision_priority (npc : NPCState.t) :
  (NPCState.food npc < 15 -> forces npc "eating" "Food Store")
  /\ (15 <= NPCState.food npc -> NPCState.rest npc < 20 ->
      forces npc "sleep" "Home")
  /\ (15 <= NPCState.food npc -> 20 <= NPCState.rest npc ->
      NPCState.money npc < 5 -> forces npc "parttime" "Food Store")
  /\ (15 <= NPCState.food npc -> 20 <= NPCState.rest npc ->
      5 <= NPCState.money npc -> hybrid_decision npc = None).
Proof.
  unfold forces, hybrid_decision.
  destruct (Z.ltb_spec (NPCState.food npc) 15);
    destruct (Z.ltb_spec (NPCState.rest npc) 20);
    destruct (Z.ltb_spec (NPCState.money npc) 5);
    repeat split; intros; try lia; eexists; repeat split.
Qed.

Lemma hybrid_decision_priority_witness :
  NPCState.food hungry_max < 15 /\ forces hungry_max "eating" "Food Store".
Proof.
  split; [reflexivity |].
  apply (hybrid_decision_priority hungry_max). reflexivity.
Defined.

(** ** Effect application *)

Lemma apply_action_preserves_range (npc : NPCState.t) (action : Action.t) :
  resources_in_range npc -> resources_in_range (apply_action npc action).
Proof.
  rewrite apply_action_resolve. intros (Hm & Hf & Hr).
  destruct (resolve action) as [pa|]; [| exact (conj Hm (conj Hf Hr))].
  unfold resources_in_range.
  change (NPCState.money (perform npc action pa)) with (getattr (perform npc action pa) Money).
  change (NPCState.food (perform npc action pa)) with (getattr (perform npc action pa) Food).
  change (NPCState.rest (perform npc action pa)) with (getattr (perform npc action pa) Rest).
  rewrite !perform_getattr.
  split; [| split]; apply apply_effects_in_range; assumption.
Qed.

(** C2.  When money, food and rest are each in [0, 200], they still are
    after apply_action, whatever the Action; and every field the matched
    effect map names, money included, ends inside [0, 200] even from a
    start outside it: the clamp is the same for every field. *)
Theorem apply_action_in_range (npc : NPCState.t) (action : Action.t) :
  (resources_in_range npc -> resources_in_range (apply_action npc action))
  /\ (forall pa s, resolve action = Some pa -> s ∈ (Act.effects pa).*1 ->
      in_range (getattr (apply_action npc action) s)).
Proof.
  split; [apply apply_action_preserves_range |].
  intros pa s Hres Hs. rewrite apply_action_resolve, Hres, perform_getattr.
  apply apply_effects_touched, Hs.
Qed.

Lemma apply_action_in_range_witness :
  resources_in_range hungry_max
  /\ resources_in_range (apply_action hungry_max
       (Action.mk "npc1" "eating" "Food Store" 1 "hungry" 1%Q)).
Proof.
  assert (resources_in_range hungry_max) as H by (repeat split; discriminate).
  split; [exact H |].
  apply (apply_action_in_range hungry_max), H.
Defined.

(** C4.  When the target place, lower-cased and with spaces turned into
    underscores, is no key of the world table, or when no entry of the
    resolved place passes the name test, apply_action returns the NPC
    exactly as it was: resources, location, worked hours, history and all
    other fields. *)
Theorem apply_action_dropped (npc : NPCState.t) (action : Action.t) :
  WORLD !! place_key action = None
  \/ (exists place, WORLD !! place_key action = Some place
        /\ forall act, act ∈ Place.actions place ->
             act_matches act (Action.action action) = false) ->
  apply_action npc action = npc.
Proof.
  intros [Hk | (place & Hk & Hnone)]; unfold apply_action; rewrite Hk; [reflexivity |].
  apply Forall_forall, find_action_None in Hnone. rewrite Hnone. reflexivity.
Qed.

Lemma apply_action_dropped_witness : apply_action max_npc moon_trip = max_npc.
Proof. apply apply_action_dropped. left. reflexivity. Defined.

(** C10.  When the Action resolves to a catalogue entry, apply_action
    leaves id, name, personality and current_hour alone, sets the location
    to the Action's place string, appends exactly one token to the history
    (so the old history is a prefix of the new one), changes the
    worked-hours counter only for fulltime and parttime, and changes no
    resource field the entry's effect map does not name. *)
Theorem apply_action_frame (npc : NPCState.t) (action : Action.t) (pa : Act.t) :
  resolve action = Some pa ->
  NPCState.id (apply_action npc action) = NPCState.id npc
  /\ NPCState.name (apply_action npc action) = NPCState.name npc
  /\ NPCState.personality (apply_action npc action) = NPCState.personality npc
  /\ NPCState.current_hour (apply_action npc action) = NPCState.current_hour npc
  /\ NPCState.location (apply_action npc action) = Action.place action
  /\ NPCState.action_history (apply_action npc action)
     = NPCState.action_history npc ++ [history_token npc pa]
  /\ NPCState.action_history npc `prefix_of`
       NPCState.action_history (apply_action npc action)
  /\ (Act.name pa ∉ ["fulltime"; "parttime"] ->
      NPCState.daily_hours_worked (apply_action npc action)
      = NPCState.daily_hours_worked npc)
  /\ (forall s, s ∉ (Act.effects pa).*1 ->
      getattr (apply_action npc action) s = getattr npc s).
Proof.
  intros Hres. rewrite apply_action_resolve, Hres.
  pose proof (perform_bystanders npc action pa) as H.
  set (npc' := perform npc action pa) in *.
  unfold bystanders in H. injection H as Hid Hname Hloc Hhour Hwork Hhist Hpers.
  repeat split; try assumption.
  - exists [history_token npc pa]. exact Hhist.
  - intros Hn. etransitivity; [exact Hwork |].
    destruct (is_work pa) eqn:E; [| reflexivity].
    apply bool_decide_eq_true in E. contradiction.
  - intros s Hs. subst npc'. rewrite perform_getattr.
    apply apply_effects_untouched, Hs.
Qed.

Lemma apply_action_frame_witness :
  NPCState.location (apply_action max_npc
    (Action.mk "npc1" "sleep" "Home" 1 "tired" 1%Q)) = "Home".
Proof.
  apply (apply_action_frame max_npc (Action.mk "npc1" "sleep" "Home" 1 "tired" 1%Q)
           (Act.mk "sleep" [(Rest, 40)] 1)).
  reflexivity.
Defined.

(** C3, as the code has it.  Within the resolved place an entry matches
    when its name equals the proposed name or occurs inside the proposed
    name (["eating lunch"] matches the entry ["eating"]); the first such
    entry in catalogue order is executed; when no entry matches, the
    action is dropped and the NPC is unchanged. *)
Theorem apply_action_name_match (npc : NPCState.t) (action : Action.t)
    (place : Place.t) :
  WORLD !! place_key action = Some place ->
  (forall pa, pa ∈ Place.actions place -> name_matches pa (Action.action action) ->
     exists before first after,
       Place.actions place = before ++ first :: after
       /\ name_matches first (Action.action action)
       /\ (forall act, act ∈ before -> ~ name_matches act (Action.action action))
       /\ apply_action npc action = perform npc action first)
  /\ ((forall act, act ∈ Place.actions place ->
         ~ name_matches act (Action.action action)) ->
      apply_action npc action = npc).
Proof.
  intros Hk. unfold apply_action. rewrite Hk. unfold name_matches. split.
  - intros pa Hin Hm.
    destruct (find_action (Place.actions place) (Action.action action)) as [first|] eqn:E.
    + apply find_action_Some in E as (before & after & Heq & Hfirst & Hbefore).
      exists before, first, after. repeat split; try assumption.
      * apply act_matches_occurs, Hfirst.
      * intros act Hact Hyes. rewrite Forall_forall in Hbefore.
        apply act_matches_occurs in Hyes. rewrite (Hbefore act Hact) in Hyes.
        discriminate.
    + rewrite find_action_None, Forall_forall in E.
      apply act_matches_occurs in Hm. rewrite (E pa Hin) in Hm. discriminate.
  - intros Hnone.
    assert (find_action (Place.actions place) (Action.action action) = None) as ->;
      [| reflexivity].
    apply find_action_None, Forall_forall. intros act Hact.
    destruct (act_matches act (Action.action action)) eqn:E; [| reflexivity].
    apply act_matches_occurs in E. destruct (Hnone act Hact E).
Qed.

Lemma apply_action_name_match_witness :
  WORLD !! place_key lunch_proposal = Some food_store
  /\ exists before first after,
       Place.actions food_store = before ++ first :: after
       /\ name_matches first (Action.action lunch_proposal)
       /\ (forall act, act ∈ before -> ~ name_matches act (Action.action lunch_proposal))
       /\ apply_action max_npc lunch_proposal = perform max_npc lunch_proposal first.
Proof.
  split; [reflexivity |].
  apply (proj1 (apply_action_name_match max_npc lunch_proposal food_store eq_refl)
           (Act.mk "eating" [(Food, 100); (Money, -60)] 1)).
  - constructor.
  - right. exists "", " lunch". reflexivity.
Defined.

(** C3 as the specification words it fails: ["eat"] does occur inside
    ["eating"], yet proposing ["eat"] at the Food Store finds no entry and
    changes nothing. *)
Lemma eat_does_not_match_eating :
  str_in "eat" "eating" = true
  /\ spec_matches (Act.mk "eating" [(Food, 100); (Money, -60)] 1) "eat" = true
  /\ act_matches (Act.mk "eating" [(Food, 100); (Money, -60)] 1) "eat" = false
  /\ WORLD !! place_key eat_proposal = Some food_store
  /\ find_action (Place.actions food_store) (Action.action eat_proposal) = None
  /\ apply_action max_npc eat_proposal = max_npc.
Proof. repeat split. Qed.

(** ** Loops over the NPC list *)

Section ForEach.
Variable body : nat -> NPCState.t -> NPCState.t.

(** An object the list does not name is not touched. *)
Lemma for_each_from_notin (i : nat) (npcs : list nat) (h : heap) (r : nat) :
  r ∉ npcs -> for_each_from i npcs body h !! r = h !! r.
Proof.
  revert i h; induction npcs as [|r0 npcs IH]; intros i h Hr; simpl.
  - reflexivity.
  - apply not_elem_of_cons in Hr as [Hne Hr].
    rewrite IH by exact Hr. apply lookup_alter_ne. congruence.
Qed.

(** An observation no iteration changes is the same after the loop, for
    every object of the heap. *)
Lemma for_each_from_preserved {A : Type} (g : NPCState.t -> A) (i : nat)
    (npcs : list nat) (h : heap) (r : nat) :
  (forall j npc, g (body j npc) = g npc) ->
  g <$> for_each_from i npcs body h !! r = g <$> h !! r.
Proof.
  intros Hg. revert i h; induction npcs as [|r0 npcs IH]; intros i h; simpl.
  - reflexivity.
  - rewrite IH, lookup_alter. case_decide; [subst r0 | reflexivity].
    destruct (h !! r) as [npc|]; [| reflexivity].
    cbn. f_equal. apply Hg.
Qed.

Lemma for_each_from_is_Some (i : nat) (npcs : list nat) (h : heap) (r : nat) :
  is_Some (for_each_from i npcs body h !! r) <-> is_Some (h !! r).
Proof.
  pose proof (for_each_from_preserved (fun _ => tt) i npcs h r (fun _ _ => eq_refl)) as H.
  rewrite <- !(fmap_is_Some (fun _ : NPCState.t => tt)), H. reflexivity.
Qed.

(** What every iteration establishes, and therefore keeps, holds after
    the loop for every object the list names. *)
Lemma for_each_from_established (P : NPCState.t -> Prop) (i : nat)
    (npcs : list nat) (h : heap) (r : nat) (npc' : NPCState.t) :
  (forall j npc, P (body j npc)) ->
  r ∈ npcs ->
  for_each_from i npcs body h !! r = Some npc' ->
  P npc'.
Proof.
  intros HP. revert i h; induction npcs as [|r0 npcs IH]; intros i h Hr Hl.
  - set_solver.
  - simpl in Hl. destruct (decide (r ∈ npcs)) as [Hin|Hout]; [eauto |].
    assert (r = r0) as -> by set_solver.
    rewrite for_each_from_notin, lookup_alter_eq in Hl by exact Hout.
    destruct (h !! r0) as [npc|]; [| discriminate].
    injection Hl as <-. apply HP.
Qed.
(** What every iteration keeps, the loop keeps, for every object. *)
Lemma for_each_from_invariant (P : NPCState.t -> Prop) (i : nat)
    (npcs : list nat) (h : heap) :
  (forall j npc, P npc -> P (body j npc)) ->
  (forall r npc, h !! r = Some npc -> P npc) ->
  forall r npc', for_each_from i npcs body h !! r = Some npc' -> P npc'.
Proof.
  intros HP. revert i h; induction npcs as [|r0 npcs IH]; intros i h Hh; simpl.
  - exact Hh.
  - apply IH. intros r npc. rewrite lookup_alter.
    case_decide; [subst r0 | apply Hh].
    destruct (h !! r) as [old|] eqn:E; [| discriminate].
    intros [= <-]. apply HP, (Hh r), E.
Qed.
End ForEach.

(** ** The hour loop *)

Lemma start_of_hour_preserved {A : Type} (g : NPCState.t -> A) (npcs : list nat)
    (hour : Z) (h : heap) (r : nat) :
  (forall npc, g (new_day npc) = g npc) ->
  g <$> start_of_hour npcs hour h !! r = g <$> h !! r.
Proof.
  intros Hg. unfold start_of_hour. case_bool_decide; [| reflexivity].
  apply for_each_from_preserved. intros _. exact Hg.
Qed.

(** C6.  The metabolism step takes 5 from food and 5 from rest, each
    floored at 0, and leaves money alone; so in every hour, once the
    metabolism loop has run, every NPC of the list has food >= 0 and
    rest >= 0, and every money counter is what it was when the hour
    began. *)
Theorem metabolism_decay :
  (forall npc,
     NPCState.food (metabolism npc) = Z.max 0 (NPCState.food npc - 5)
     /\ NPCState.rest (metabolism npc) = Z.max 0 (NPCState.rest npc - 5)
     /\ 0 <= NPCState.food (metabolism npc)
     /\ 0 <= NPCState.rest (metabolism npc)
     /\ NPCState.money (metabolism npc) = NPCState.money npc)
  /\ (forall npcs hour (h : heap) r npc',
        r ∈ npcs -> after_metabolism npcs hour h !! r = Some npc' ->
        0 <= NPCState.food npc' /\ 0 <= NPCState.rest npc')
  /\ (forall npcs hour (h : heap) r,
        NPCState.money <$> after_metabolism npcs hour h !! r
        = NPCState.money <$> h !! r).
Proof.
  split; [| split].
  - intros npc. simpl. repeat split; lia.
  - intros npcs hour h r npc' Hr Hl.
    apply (for_each_from_established (fun _ => metabolism)
             (fun npc => 0 <= NPCState.food npc /\ 0 <= NPCState.rest npc)
             0 npcs (start_of_hour npcs hour h) r npc'); [| exact Hr | exact Hl].
    intros _ npc. simpl. lia.
  - intros npcs hour h r. unfold after_metabolism, for_each.
    rewrite for_each_from_preserved by reflexivity.
    apply start_of_hour_preserved. reflexivity.
Qed.

Lemma metabolism_decay_witness :
  after_metabolism [0%nat] 7 {[ 0%nat := NPCState.new "npc1" "Max" 50 3 50 "lazy" ]} !! 0%nat
  = Some (NPCState.new "npc1" "Max" 50 0 45 "lazy")
  /\ 0 <= NPCState.food (NPCState.new "npc1" "Max" 50 0 45 "lazy")
  /\ 0 <= NPCState.rest (NPCState.new "npc1" "Max" 50 0 45 "lazy").
Proof.
  assert (after_metabolism [0%nat] 7 {[ 0%nat := NPCState.new "npc1" "Max" 50 3 50 "lazy" ]}
            !! 0%nat = Some (NPCState.new "npc1" "Max" 50 0 45 "lazy")) as H
    by (vm_compute; reflexivity).
  split; [exact H |].
  apply (proj1 (proj2 metabolism_decay) [0%nat] 7 _ 0%nat _ (list_elem_of_here _ _) H).
Defined.

(** C7.  At hour 0 the worked-hours counter of every NPC of the list is
    set to 0, and at no other hour the start of the hour touches the heap;
    apply_action adds the matched entry's duration (1 for every entry of
    the world) to the counter when that entry is named fulltime or
    parttime, and leaves the counter alone for every other entry and for
    every dropped action. *)
Theorem worked_hours_counter :
  (forall npcs (h : heap) r,
     r ∈ npcs -> is_Some (h !! r) ->
     exists npc', start_of_hour npcs 0 h !! r = Some npc'
       /\ NPCState.daily_hours_worked npc' = 0)
  /\ (forall npcs hour (h : heap), hour <> 0 -> start_of_hour npcs hour h = h)
  /\ (forall npc action pa,
        resolve action = Some pa ->
        (Act.name pa = "fulltime" \/ Act.name pa = "parttime" ->
         NPCState.daily_hours_worked (apply_action npc action)
         = NPCState.daily_hours_worked npc + Act.duration pa
         /\ Act.duration pa = 1)
        /\ (Act.name pa <> "fulltime" -> Act.name pa <> "parttime" ->
            NPCState.daily_hours_worked (apply_action npc action)
            = NPCState.daily_hours_worked npc))
  /\ (forall npc action,
        resolve action = None ->
        NPCState.daily_hours_worked (apply_action npc action)
        = NPCState.daily_hours_worked npc).
Proof.
  split; [| split; [| split]].
  - intros npcs h r Hr Hsome. unfold start_of_hour. rewrite bool_decide_eq_true_2 by reflexivity.
    apply (for_each_from_is_Some (fun _ => new_day) 0 npcs h r) in Hsome as [npc' Hl].
    exists npc'. split; [exact Hl |].
    apply (for_each_from_established (fun _ => new_day)
             (fun npc => NPCState.daily_hours_worked npc = 0) 0 npcs h r npc');
      [reflexivity | exact Hr | exact Hl].
  - intros npcs hour h Hne. unfold start_of_hour.
    rewrite bool_decide_eq_false_2 by exact Hne. reflexivity.
  - intros npc action pa Hres. rewrite apply_action_resolve, Hres.
    pose proof (perform_bystanders npc action pa) as H.
    set (npc' := perform npc action pa) in *.
    unfold bystanders in H. injection H as _ _ _ _ Hwork _ _.
    split.
    + intros Hname%is_work_names. split.
      * etransitivity; [exact Hwork |]. rewrite Hname. reflexivity.
      * pose proof WORLD_durations as Hd. rewrite Forall_forall in Hd.
        apply Hd, resolve_catalogue with action, Hres.
    + intros Hf Hp. etransitivity; [exact Hwork |].
      destruct (is_work pa) eqn:E; [| reflexivity].
      apply is_work_names in E as [E | E]; contradiction.
  - intros npc action Hres. rewrite apply_action_resolve, Hres. reflexivity.
Qed.

Lemma worked_hours_counter_witness :
  exists npc',
    start_of_hour [0%nat] 0 {[ 0%nat := NPCState.mk "npc1" "Max" 50 50 50 "Home" 23 8 [] "workaholic" ]}
      !! 0%nat = Some npc'
    /\ NPCState.daily_hours_worked npc' = 0.
Proof.
  apply (proj1 worked_hours_counter [0%nat] _ 0%nat (list_elem_of_here _ _)).
  eexists. vm_compute. reflexivity.
Defined.

(** ** The random fallback *)

Lemma random_choice_mod (k : nat) :
  random_choice fallback_actions k = random_choice fallback_actions (k mod 4).
Proof.
  unfold random_choice. change (length fallback_actions) with 4%nat.
  rewrite Nat.Div0.mod_mod. reflexivity.
Qed.

(** The four Actions the fallback can build. *)
Lemma fallback_action_cases (npc : NPCState.t) (k : nat) :
  fallback_action npc k
  ∈ [ Action.mk (NPCState.id npc) "sleep" "Home" 1 "Random choice" (1 # 2)%Q;
      Action.mk (NPCState.id npc) "eating" "Park" 1 "Random choice" (1 # 2)%Q;
      Action.mk (NPCState.id npc) "relax" "Home" 1 "Random choice" (1 # 2)%Q;
      Action.mk (NPCState.id npc) "walk" "Park" 1 "Random choice" (1 # 2)%Q ].
Proof.
  unfold fallback_action. rewrite random_choice_mod.
  pose proof (Nat.mod_upper_bound k 4) as Hk.
  destruct (k mod 4)%nat as [|[|[|[|n]]]]; [| | | | lia];
    change (length fallback_actions) with 4%nat; cbn; set_solver.
Qed.

(** Each of the four names is drawn by exactly one of the four indices. *)
Lemma fallback_draw_unique (x : string) :
  x ∈ fallback_actions ->
  length (filter (fun k => random_choice fallback_actions k = x) (seq 0 4)) = 1%nat.
Proof.
  unfold fallback_actions. rewrite !elem_of_cons, elem_of_nil.
  intros [-> | [-> | [-> | [-> | []]]]]; reflexivity.
Qed.

(** C8.  When the rule gate passes and the delegation fails, the Action
    applied is the fallback: its name is the entry of the list sleep,
    eating, relax, walk at the drawn index, each of the four names drawn
    by exactly one of the four equally likely indices; its confidence is
    0.5, its duration 1, its reason "Random choice", and its place is
    Home for sleep and relax and Park otherwise. *)
Theorem fallback_on_failure (o : Collaborator) (hour : Z) (i : nat)
    (npc : NPCState.t) :
  hybrid_decision (Set_.current_hour hour npc) = None ->
  kickoff o hour i (Set_.current_hour hour npc) = None ->
  exists a,
    decide_and_act o hour i npc = apply_action (Set_.current_hour hour npc) a
    /\ a = fallback_action (Set_.current_hour hour npc) (draw o hour i)
    /\ Action.npc_id a = NPCState.id npc
    /\ fallback_actions !! (draw o hour i mod 4)%nat = Some (Action.action a)
    /\ Action.action a ∈ ["sleep"; "eating"; "relax"; "walk"]
    /\ Action.confidence a = (1 # 2)%Q
    /\ Action.duration a = 1
    /\ Action.reason a = "Random choice"
    /\ (Action.action a = "sleep" \/ Action.action a = "relax" ->
        Action.place a = "Home")
    /\ (Action.action a <> "sleep" -> Action.action a <> "relax" ->
        Action.place a = "Park")
    /\ (forall x, x ∈ ["sleep"; "eating"; "relax"; "walk"] ->
        length (filter (fun k => random_choice fallback_actions k = x) (seq 0 4))
        = 1%nat).
Proof.
  intros Hgate Hfail. eexists. split; [| split; [reflexivity |]].
  - unfold decide_and_act. rewrite Hgate, Hfail. reflexivity.
  - pose proof (fallback_action_cases (Set_.current_hour hour npc) (draw o hour i)) as Hc.
    assert (fallback_actions !! (draw o hour i mod 4)%nat
            = Some (Action.action (fallback_action (Set_.current_hour hour npc)
                                     (draw o hour i)))) as Hidx.
    { unfold fallback_action. cbn [Action.action]. rewrite random_choice_mod.
      unfold random_choice. change (length fallback_actions) with 4%nat.
      rewrite Nat.Div0.mod_mod.
      pose proof (Nat.mod_upper_bound (draw o hour i) 4) as Hk.
      destruct (draw o hour i mod 4)%nat as [|[|[|[|n]]]]; [| | | | lia]; reflexivity. }
    split; [reflexivity | split; [exact Hidx |]].
    rewrite !elem_of_cons, elem_of_nil in Hc.
    destruct Hc as [-> | [-> | [-> | [-> | []]]]]; cbn;
      (split_and!;
       [ set_solver
       | reflexivity
       | reflexivity
       | reflexivity
       | intros [? | ?]; (reflexivity || discriminate)
       | intros ? ?; (reflexivity || contradiction)
       | exact fallback_draw_unique ]).
Qed.

Lemma fallback_on_failure_witness :
  hybrid_decision (Set_.current_hour 3 max_npc) = None
  /\ kickoff silent 3 0%nat (Set_.current_hour 3 max_npc) = None
  /\ exists a,
       decide_and_act silent 3 0%nat max_npc
       = apply_action (Set_.current_hour 3 max_npc) a
       /\ Action.action a ∈ ["sleep"; "eating"; "relax"; "walk"]
       /\ Action.confidence a = (1 # 2)%Q.
Proof.
  split; [reflexivity | split; [reflexivity |]].
  destruct (fallback_on_failure silent 3 0%nat max_npc eq_refl eq_refl)
    as (a & Hact & _ & _ & _ & Hin & Hconf & _).
  exists a. split; [exact Hact | split; [exact Hin | exact Hconf]].
Defined.

(** C9.  When the fallback draws eating, the Action it builds targets
    Park; Park's only entry is walk, which matches eating neither by
    equality nor by containment, in either direction; so applying this
    fallback returns the NPC unchanged in every field. *)
Theorem fallback_eating_is_dropped (npc : NPCState.t) (k : nat) :
  Action.action (fallback_action npc k) = "eating" ->
  Action.place (fallback_action npc k) = "Park"
  /\ WORLD !! place_key (fallback_action npc k) = Some park
  /\ Act.name <$> Place.actions park = ["walk"]
  /\ (forall act, act ∈ Place.actions park ->
        Act.name act <> "eating"
        /\ str_in (Act.name act) "eating" = false
        /\ str_in "eating" (Act.name act) = false)
  /\ resolve (fallback_action npc k) = None
  /\ apply_action npc (fallback_action npc k) = npc.
Proof.
  intros Hname. pose proof (fallback_action_cases npc k) as Hc.
  rewrite !elem_of_cons, elem_of_nil in Hc.
  destruct Hc as [E | [E | [E | [E | []]]]]; rewrite E in *; try discriminate Hname.
  split_and!; try reflexivity.
  intros act ->%list_elem_of_singleton. split_and!; [discriminate | reflexivity..].
Qed.

Lemma fallback_eating_is_dropped_witness :
  Action.action (fallback_action max_npc 1) = "eating"
  /\ apply_action max_npc (fallback_action max_npc 1) = max_npc.
Proof.
  split; [reflexivity |].
  apply (fallback_eating_is_dropped max_npc 1). reflexivity.
Defined.

(** ** The end-of-day statistic *)

(** A history without repeated tokens has diversity 1, however few
    action names it uses. *)
Lemma diversity_NoDup (npc : NPCState.t) :
  NoDup (NPCState.action_history npc) ->
  NPCState.action_history npc <> [] ->
  diversity npc == 1.
Proof.
  intros Hnd Hne. unfold diversity.
  assert (remove_dups (NPCState.action_history npc) = NPCState.action_history npc) as ->.
  { clear Hne. induction Hnd as [|x l Hx Hnd IH]; [reflexivity |]. simpl.
    destruct (decide_rel elem_of x l); [contradiction | f_equal; exact IH]. }
  destruct (NPCState.action_history npc) as [|x l]; [contradiction |].
  rewrite Z.max_r by (simpl length; lia).
  apply Qmult_inv_r. unfold Qeq. simpl. lia.
Qed.

(** C5 on the code.  After the 24 hours of a day in which the
    collaborator always proposes a walk, Max's history holds 24 tokens
    that use exactly 4 distinct action names, and the statistic is 1, not
    4/24: the tokens carry the hour, so no two of them are equal. *)
Theorem diversity_counts_tokens :
  exists npc,
    max_after_day = Some npc
    /\ length (NPCState.action_history npc) = 24%nat
    /\ distinct_actions (NPCState.action_history npc)
       = ["eating"; "parttime"; "sleep"; "walk"]
    /\ diversity npc == 1
    /\ ~ diversity npc == 4 # 24.
Proof.
  eexists. split; [vm_compute; reflexivity |].
  split_and!; [reflexivity | vm_compute; reflexivity | reflexivity | discriminate].
Qed.

(** ** The whole day *)

Lemma metabolism_preserves_range (npc : NPCState.t) :
  resources_in_range npc -> resources_in_range (metabolism npc).
Proof. unfold resources_in_range, in_range. simpl. lia. Qed.

Lemma decide_and_act_preserves_range (o : Collaborator) (hour : Z) (i : nat)
    (npc : NPCState.t) :
  resources_in_range npc -> resources_in_range (decide_and_act o hour i npc).
Proof.
  intros H. unfold decide_and_act.
  destruct (hybrid_decision _); [| destruct (kickoff _ _ _ _)];
    apply apply_action_preserves_range, H.
Qed.

Lemma simulate_hour_in_range (o : Collaborator) (npcs : list nat) (h : heap)
    (hour : Z) :
  heap_in_range h -> heap_in_range (simulate_hour o npcs h hour).
Proof.
  intros Hh. unfold simulate_hour, heap_in_range, for_each.
  apply for_each_from_invariant; [apply decide_and_act_preserves_range |].
  apply for_each_from_invariant; [intros _; apply metabolism_preserves_range |].
  unfold start_of_hour. case_bool_decide; [| exact Hh].
  apply for_each_from_invariant; [| exact Hh]. intros _ npc Hn. exact Hn.
Qed.

(** X9.  The invariant of the data model: whatever the collaborator
    answers and whatever the generator draws, a day that starts with every
    counter in [0, 200] ends with every counter in [0, 200]. *)
Lemma simulate_day_in_range (o : Collaborator) (npcs : list nat) (hours : Z)
    (h : heap) :
  heap_in_range h -> heap_in_range (simulate_day o npcs hours h).
Proof.
  unfold simulate_day. generalize (seqZ 0 hours) as hs. intros hs; revert h.
  induction hs as [|hour hs IH]; intros h Hh; simpl; [exact Hh |].
  apply IH, simulate_hour_in_range, Hh.
Qed.

(** * Further properties of the program *)

(** ** The rule gate and the effect engine together *)

Lemma hybrid_decision_resolves (npc : NPCState.t) (a : Action.t) :
  hybrid_decision npc = Some a ->
  exists pa, resolve a = Some pa /\ Act.name pa = Action.action a.
Proof.
  unfold hybrid_decision.
  destruct (NPCState.food npc <? 15); [| destruct (NPCState.rest npc <? 20);
    [| destruct (NPCState.money npc <? 5); [| discriminate]]];
    intros [= <-]; eexists; split; reflexivity.
Qed.

Lemma perform_changes (npc : NPCState.t) (action : Action.t) (pa : Act.t) :
  perform npc action pa <> npc.
Proof.
  intros E. pose proof (perform_bystanders npc action pa) as H.
  rewrite E in H. unfold bystanders in H. injection H as _ _ Hhist.
  apply (f_equal length) in Hhist. rewrite length_app in Hhist. simpl in Hhist. lia.
Qed.

(** X1.  An action the rule gate forces is never dropped: its place is in
    the world, and the entry found there carries the forced name, so the
    NPC does change. *)
Theorem forced_action_is_performed (npc : NPCState.t) (a : Action.t) :
  hybrid_decision npc = Some a ->
  exists pa,
    resolve a = Some pa
    /\ Act.name pa = Action.action a
    /\ apply_action npc a = perform npc a pa
    /\ apply_action npc a <> npc.
Proof.
  intros (pa & Hres & Hname)%hybrid_decision_resolves.
  exists pa. rewrite apply_action_resolve, Hres.
  split_and!; [reflexivity | exact Hname | reflexivity | apply perform_changes].
Qed.

Lemma forced_action_is_performed_witness :
  exists pa,
    resolve (Action.mk "npc1" "sleep" "Home" 1
               (siren +:+ " Survival baseline: rest=10 < 20, forced sleep") 1%Q)
    = Some pa
    /\ Act.name pa = "sleep".
Proof.
  destruct (forced_action_is_performed tired_max _ eq_refl) as (pa & Hres & Hname & _).
  exists pa. split; [exact Hres | exact Hname].
Defined.

(** X3.  apply_action returns the NPC unchanged exactly when the action
    is dropped: an action that resolves always leaves a trace. *)
Theorem apply_action_noop_iff_dropped (npc : NPCState.t) (action : Action.t) :
  apply_action npc action = npc <-> resolve action = None.
Proof.
  rewrite apply_action_resolve. destruct (resolve action) as [pa|].
  - split; [intros E; destruct (perform_changes npc action pa E) | discriminate].
  - split; reflexivity.
Qed.

Lemma apply_action_noop_iff_dropped_witness :
  resolve moon_trip = None /\ apply_action max_npc moon_trip = max_npc.
Proof.
  split; [reflexivity |].
  apply (proj2 (apply_action_noop_iff_dropped max_npc moon_trip)). reflexivity.
Defined.

(** The effect map of every entry of the world names each field once. *)
Lemma WORLD_effect_keys :
  Forall (fun act => NoDup (Act.effects act).*1) WORLD_actions.
Proof. repeat constructor; set_solver. Qed.

Lemma apply_effects_exact (effects : list (stat * Z)) (npc : NPCState.t)
    (s : stat) (change : Z) :
  NoDup effects.*1 -> (s, change) ∈ effects ->
  getattr (apply_effects effects npc) s = clamp (getattr npc s + change).
Proof.
  revert npc; induction effects as [|[s0 c0] effects IH]; intros npc Hnd Hin.
  - set_solver.
  - rewrite apply_effects_cons. cbn in Hnd. apply NoDup_cons in Hnd as [Hs0 Hnd].
    apply elem_of_cons in Hin as [[= -> ->] | Hin].
    + rewrite apply_effects_untouched by exact Hs0. apply getattr_setattr.
    + rewrite (IH _ Hnd Hin). f_equal. f_equal. apply getattr_setattr_ne.
      intros ->. apply Hs0. apply list_elem_of_fmap. exists (s, change). auto.
Qed.

Lemma apply_action_exact (npc : NPCState.t) (action : Action.t) (pa : Act.t)
    (s : stat) (change : Z) :
  resolve action = Some pa -> (s, change) ∈ Act.effects pa ->
  getattr (apply_action npc action) s = clamp (getattr npc s + change).
Proof.
  intros Hres Hin. rewrite apply_action_resolve, Hres, perform_getattr.
  apply apply_effects_exact; [| exact Hin].
  pose proof WORLD_effect_keys as H. rewrite Forall_forall in H.
  apply H, resolve_catalogue with action, Hres.
Qed.

(** X4.  When the action resolves, every field its entry names ends at
    its old value plus the entry's delta, cut to [0, 200]: each delta is
    applied exactly once, to the value the field had before the call. *)
Theorem apply_action_adds_delta (npc : NPCState.t) (action : Action.t)
    (pa : Act.t) (s : stat) (change : Z) :
  resolve action = Some pa ->
  (s, change) ∈ Act.effects pa ->
  getattr (apply_action npc action) s
  = Z.max 0 (Z.min 200 (getattr npc s + change)).
Proof.
  intros Hres Hin. rewrite apply_action_resolve, Hres, perform_getattr.
  pose proof WORLD_effect_keys as Hkeys. rewrite Forall_forall in Hkeys.
  specialize (Hkeys pa (resolve_catalogue action pa Hres)).
  exact (apply_effects_exact (Act.effects pa) npc s change Hkeys Hin).
Qed.

Lemma apply_action_adds_delta_witness :
  getattr (apply_action hungry_max
             (Action.mk "npc1" "eating" "Food Store" 1 "hungry" 1%Q)) Money
  = Z.max 0 (Z.min 200 (50 + -60)).
Proof.
  apply (apply_action_adds_delta hungry_max
           (Action.mk "npc1" "eating" "Food Store" 1 "hungry" 1%Q)
           (Act.mk "eating" [(Food, 100); (Money, -60)] 1) Money (-60)).
  - reflexivity.
  - apply list_elem_of_further, list_elem_of_here.
Defined.

(** X2.  On an NPC whose counters are not negative, the forced action
    cures the rule that forced it, and the clamp does not cut it: forced
    eating adds exactly 100 to food, forced sleep exactly 40 to rest,
    forced work exactly 20 to money, which lifts the counter over the
    threshold that fired. *)
Theorem forced_action_cures (npc : NPCState.t) (a : Action.t) :
  hybrid_decision npc = Some a ->
  0 <= NPCState.food npc -> 0 <= NPCState.rest npc -> 0 <= NPCState.money npc ->
  (NPCState.food npc < 15 ->
     NPCState.food (apply_action npc a) = NPCState.food npc + 100)
  /\ (15 <= NPCState.food npc -> NPCState.rest npc < 20 ->
      NPCState.rest (apply_action npc a) = NPCState.rest npc + 40)
  /\ (15 <= NPCState.food npc -> 20 <= NPCState.rest npc ->
      NPCState.money npc < 5 ->
      NPCState.money (apply_action npc a) = NPCState.money npc + 20).
Proof.
  intros Hd Hf Hr Hm. unfold hybrid_decision in Hd.
  destruct (Z.ltb_spec (NPCState.food npc) 15);
    [| destruct (Z.ltb_spec (NPCState.rest npc) 20);
       [| destruct (Z.ltb_spec (NPCState.money npc) 5); [| discriminate]]];
    injection Hd as <-; split_and!; intros; try lia.
  - change (NPCState.food ?n) with (getattr n Food) at 1.
    erewrite apply_action_exact;
      [| reflexivity | apply list_elem_of_here]. unfold clamp. simpl. lia.
  - change (NPCState.rest ?n) with (getattr n Rest) at 1.
    erewrite apply_action_exact;
      [| reflexivity | apply list_elem_of_here]. unfold clamp. simpl. lia.
  - change (NPCState.money ?n) with (getattr n Money) at 1.
    erewrite apply_action_exact;
      [| reflexivity | apply list_elem_of_here]. unfold clamp. simpl. lia.
Qed.

Lemma forced_action_cures_witness :
  NPCState.food (apply_action hungry_max
    (Action.mk "npc1" "eating" "Food Store" 1
       (siren +:+ " Survival baseline: food=10 < 15, forced eating") 1%Q))
  = 10 + 100.
Proof.
  apply (forced_action_cures hungry_max _ eq_refl); [discriminate.. | reflexivity].
Defined.

(** ** Names the catalogue cannot match *)






(** ** The catalogue handed to the collaborator *)

(** X6.  Every offer of the catalogue that create_ai_decision_task
    builds is accepted back: an Action that copies an offer's place and
    action name resolves, and to the very entry the offer was made from,
    with the advertised effects and duration. *)
Theorem offer_round_trip (offer : Offer.t) (action : Action.t) :
  offer ∈ available_actions ->
  Action.place action = Offer.place offer ->
  Action.action action = Offer.action offer ->
  exists pa,
    resolve action = Some pa
    /\ Act.name pa = Offer.action offer
    /\ Act.effects pa = Offer.effects offer
    /\ Act.duration pa = Offer.duration offer.
Proof.
  intros Hin Hplace Hname. unfold resolve, place_key. rewrite Hplace, Hname.
  clear Hplace Hname. cbv [available_actions WORLD_items mbind list_bind fmap list_fmap
    food_store wooden_factory home park Place.actions Place.name snd app] in Hin.
  rewrite !elem_of_cons, elem_of_nil in Hin.
  destruct Hin as [-> | [-> | [-> | [-> | [-> | [-> | [-> | [-> | []]]]]]]]];
    eexists; split_and!; reflexivity.
Qed.

Lemma offer_round_trip_witness :
  exists pa,
    resolve (propose (Offer.mk "Wooden Factory" "chat" [(Rest, 5)] 1) max_npc
               "a word with colleagues" (4 # 5)%Q) = Some pa
    /\ Act.name pa = "chat".
Proof.
  destruct (offer_round_trip (Offer.mk "Wooden Factory" "chat" [(Rest, 5)] 1)
              (propose (Offer.mk "Wooden Factory" "chat" [(Rest, 5)] 1) max_npc
                 "a word with colleagues" (4 # 5)%Q))
    as (pa & Hres & Hname & _).
  - do 4 apply list_elem_of_further. apply list_elem_of_here.
  - reflexivity.
  - reflexivity.
  - exists pa. split; [exact Hres | exact Hname].
Defined.

Example available_actions_places :
  (fun offer => (Offer.place offer, Offer.action offer)) <$> available_actions
  = [ ("Food Store", "eating"); ("Food Store", "parttime"); ("Food Store", "shopping");
      ("Wooden Factory", "fulltime"); ("Wooden Factory", "chat");
      ("Home", "sleep"); ("Home", "relax"); ("Park", "walk") ].
Proof. reflexivity. Qed.

(** ** Personality *)

Lemma apply_effects_with_personality (p : string) (effects : list (stat * Z))
    (npc : NPCState.t) :
  apply_effects effects (with_personality p npc)
  = with_personality p (apply_effects effects npc).
Proof.
  revert npc; induction effects as [|[s change] effects IH]; intros npc.
  - reflexivity.
  - rewrite !apply_effects_cons, <- IH. f_equal. destruct s; reflexivity.
Qed.

(** X7.  The personality is never read by the rules: changing it changes
    neither what the gate forces nor what metabolism and apply_action
    compute; they carry it along untouched. *)
Theorem personality_is_not_read (p : string) (npc : NPCState.t) (action : Action.t) :
  hybrid_decision (with_personality p npc) = hybrid_decision npc
  /\ metabolism (with_personality p npc) = with_personality p (metabolism npc)
  /\ apply_action (with_personality p npc) action
     = with_personality p (apply_action npc action).
Proof.
  split_and!; [reflexivity | reflexivity |].
  rewrite !apply_action_resolve. destruct (resolve action) as [pa|]; [| reflexivity].
  unfold perform. rewrite apply_effects_with_personality.
  destruct (is_work pa); reflexivity.
Qed.

(** ** More on the loops over the NPC list *)

Section ForEachMore.
Variable body : nat -> NPCState.t -> NPCState.t.

(** A preorder every iteration respects relates each object before the
    loop to the same object after it. *)
Lemma for_each_from_related (R : relation NPCState.t) `{!Reflexive R, !Transitive R}
    (i : nat) (npcs : list nat) (h : heap) (r : nat) (npc : NPCState.t) :
  (forall j n, R n (body j n)) ->
  h !! r = Some npc ->
  exists npc', for_each_from i npcs body h !! r = Some npc' /\ R npc npc'.
Proof.
  intros HR. revert i h npc; induction npcs as [|r0 npcs IH]; intros i h npc Hl; simpl.
  - exists npc. split; [exact Hl | reflexivity].
  - destruct (decide (r0 = r)) as [-> | Hne].
    + destruct (IH (S i) (alter (body i) r h) (body i npc)) as (npc' & Hl' & HR').
      { rewrite lookup_alter_eq, Hl. reflexivity. }
      exists npc'. split; [exact Hl' |]. transitivity (body i npc); [apply HR | exact HR'].
    + apply IH. rewrite lookup_alter_ne by exact Hne. exact Hl.
Qed.

(** When the listed objects start inside [Pre], every iteration takes
    [Pre] to [Post], and [Post] is inside [Pre], the listed objects end
    inside [Post]. *)
Lemma for_each_from_listed (Pre Post : NPCState.t -> Prop) (i : nat)
    (npcs : list nat) (h : heap) :
  (forall j n, Pre n -> Post (body j n)) ->
  (forall n, Post n -> Pre n) ->
  (forall r n, r ∈ npcs -> h !! r = Some n -> Pre n) ->
  forall r n', r ∈ npcs -> for_each_from i npcs body h !! r = Some n' -> Post n'.
Proof.
  intros Hstep Hsub. revert i h; induction npcs as [|r0 npcs IH];
    intros i h Hpre r n' Hr Hl.
  - set_solver.
  - simpl in Hl.
    assert (forall r n, r ∈ npcs -> alter (body i) r0 h !! r = Some n -> Pre n) as Hpre'.
    { intros r1 n Hr1. rewrite lookup_alter. case_decide; [subst r1 | ].
      - destruct (h !! r0) as [old|] eqn:E; [| discriminate].
        intros [= <-]. apply Hsub, Hstep, (Hpre r0); [set_solver | exact E].
      - apply Hpre. set_solver. }
    destruct (decide (r ∈ npcs)) as [Hin | Hout]; [exact (IH _ _ Hpre' r n' Hin Hl) |].
    assert (r = r0) as -> by set_solver.
    rewrite for_each_from_notin, lookup_alter_eq in Hl by exact Hout.
    destruct (h !! r0) as [old|] eqn:E; [| discriminate].
    injection Hl as <-. apply Hstep, (Hpre r0); [set_solver | exact E].
Qed.

(** On a list that names no object twice, the loop runs the body once on
    each listed object, with the object's position as the count. *)
Lemma for_each_from_NoDup (i k : nat) (npcs : list nat) (h : heap) (r : nat) :
  NoDup npcs -> npcs !! k = Some r ->
  for_each_from i npcs body h !! r = body (i + k) <$> h !! r.
Proof.
  revert i k h; induction npcs as [|r0 npcs IH]; intros i k h Hnd Hk.
  - discriminate.
  - apply NoDup_cons in Hnd as [Hr0 Hnd]. simpl. destruct k as [|k].
    + injection Hk as ->. rewrite for_each_from_notin by exact Hr0.
      rewrite lookup_alter_eq, Nat.add_0_r. reflexivity.
    + cbn in Hk. rewrite (IH (S i) k _ Hnd Hk), lookup_alter_ne.
      * f_equal. f_equal. lia.
      * intros ->. apply Hr0. eapply list_elem_of_lookup_2, Hk.
Qed.
End ForEachMore.

(** ** The day, hour by hour *)

(** The last hour of a day comes after the day one hour shorter. *)
Lemma simulate_day_last (o : Collaborator) (npcs : list nat) (hours : Z) (h : heap) :
  1 <= hours ->
  simulate_day o npcs hours h
  = simulate_hour o npcs (simulate_day o npcs (hours - 1) h) (hours - 1).
Proof.
  intros Hh. unfold simulate_day.
  replace hours with ((hours - 1) + 1) at 1 by lia.
  rewrite seqZ_app by lia. rewrite fold_left_app.
  rewrite (seqZ_cons _ 1) by lia. rewrite seqZ_nil by lia. reflexivity.
Qed.

Lemma simulate_hour_notin (o : Collaborator) (npcs : list nat) (h : heap)
    (hour : Z) (r : nat) :
  r ∉ npcs -> simulate_hour o npcs h hour !! r = h !! r.
Proof.
  intros Hr. unfold simulate_hour, for_each, start_of_hour.
  rewrite !for_each_from_notin by exact Hr.
  case_bool_decide; [apply for_each_from_notin, Hr | reflexivity].
Qed.

(** X8.  simulate_day touches only the objects its list names; and with
    an empty list, or with a number of hours that is zero or negative,
    it returns the heap as it was. *)
Theorem simulate_day_frame (o : Collaborator) (npcs : list nat) (hours : Z)
    (h : heap) :
  (forall r, r ∉ npcs -> simulate_day o npcs hours h !! r = h !! r)
  /\ (hours <= 0 -> simulate_day o npcs hours h = h)
  /\ simulate_day o [] hours h = h.
Proof.
  split_and!.
  - intros r Hr. unfold simulate_day. generalize (seqZ 0 hours) as hs.
    intros hs; revert h; induction hs as [|hour hs IH]; intros h; simpl.
    + reflexivity.
    + rewrite IH. apply simulate_hour_notin, Hr.
  - intros Hh. unfold simulate_day. rewrite seqZ_nil by exact Hh. reflexivity.
  - unfold simulate_day. generalize (seqZ 0 hours) as hs.
    intros hs; induction hs as [|hour hs IH]; simpl; [reflexivity |].
    rewrite <- IH at 2. f_equal. unfold simulate_hour, start_of_hour.
    case_bool_decide; reflexivity.
Qed.

Lemma simulate_day_frame_witness :
  simulate_day walker [0%nat; 1%nat] 24 main_heap !! 2%nat = main_heap !! 2%nat.
Proof.
  apply (proj1 (simulate_day_frame walker [0%nat; 1%nat] 24 main_heap)).
  intros H. apply elem_of_cons in H as [H | H]; [discriminate |].
  apply elem_of_cons in H as [H | H]; [discriminate |].
  apply elem_of_nil in H. exact H.
Defined.

(** ** What a day keeps *)

#[local] Instance continues_refl : Reflexive continues.
Proof. intros npc. unfold continues. split_and!; reflexivity. Qed.

#[local] Instance continues_trans : Transitive continues.
Proof.
  intros a b c (? & ? & ? & Hab) (? & ? & ? & Hbc). unfold continues.
  split_and!; try congruence. etransitivity; eassumption.
Qed.

Lemma apply_action_continues (npc : NPCState.t) (action : Action.t) :
  continues npc (apply_action npc action).
Proof.
  rewrite apply_action_resolve. destruct (resolve action) as [pa|]; [| reflexivity].
  pose proof (perform_bystanders npc action pa) as H.
  set (npc' := perform npc action pa) in *.
  unfold bystanders in H. injection H as Hid Hname _ _ _ Hhist Hpers.
  unfold continues. split_and!; try assumption.
  exists [history_token npc pa]. exact Hhist.
Qed.

Lemma decide_and_act_continues (o : Collaborator) (hour : Z) (i : nat)
    (npc : NPCState.t) :
  continues npc (decide_and_act o hour i npc).
Proof.
  unfold decide_and_act.
  transitivity (Set_.current_hour hour npc); [unfold continues; split_and!; reflexivity |].
  destruct (hybrid_decision _); [| destruct (kickoff _ _ _ _)];
    apply apply_action_continues.
Qed.

Lemma simulate_hour_continues (o : Collaborator) (npcs : list nat) (h : heap)
    (hour : Z) (r : nat) (npc : NPCState.t) :
  h !! r = Some npc ->
  exists npc', simulate_hour o npcs h hour !! r = Some npc' /\ continues npc npc'.
Proof.
  intros Hl. unfold simulate_hour, for_each.
  assert (exists n1, start_of_hour npcs hour h !! r = Some n1 /\ continues npc n1)
    as (n1 & Hl1 & H1).
  { unfold start_of_hour, for_each. case_bool_decide.
    - apply (for_each_from_related _ continues); [| exact Hl].
      intros _ n. unfold continues. split_and!; reflexivity.
    - exists npc. split; [exact Hl | reflexivity]. }
  destruct (for_each_from_related (fun _ => metabolism) continues 0 npcs
              (start_of_hour npcs hour h) r n1)
    as (n2 & Hl2 & H2); [| exact Hl1 |].
  { intros _ n. unfold continues. split_and!; reflexivity. }
  destruct (for_each_from_related (decide_and_act o hour) continues 0 npcs
              (for_each_from 0 npcs (fun _ => metabolism) (start_of_hour npcs hour h))
              r n2)
    as (n3 & Hl3 & H3); [| exact Hl2 |].
  { intros j n. apply decide_and_act_continues. }
  exists n3. split; [exact Hl3 |].
  transitivity n1; [exact H1 |]. transitivity n2; assumption.
Qed.

(** X10.  Through a whole day, whatever the collaborator answers, every
    object of the heap stays in the heap and keeps its id, its name and
    its personality, and its history is only ever extended: the history
    before the day is a prefix of the history after it. *)
Theorem simulate_day_continues (o : Collaborator) (npcs : list nat) (hours : Z)
    (h : heap) (r : nat) (npc : NPCState.t) :
  h !! r = Some npc ->
  exists npc',
    simulate_day o npcs hours h !! r = Some npc'
    /\ NPCState.id npc' = NPCState.id npc
    /\ NPCState.name npc' = NPCState.name npc
    /\ NPCState.personality npc' = NPCState.personality npc
    /\ NPCState.action_history npc `prefix_of` NPCState.action_history npc'.
Proof.
  unfold simulate_day. generalize (seqZ 0 hours) as hs.
  intros hs; revert h npc; induction hs as [|hour hs IH]; intros h npc Hl; simpl.
  - exists npc. split_and!; [exact Hl | reflexivity..].
  - destruct (simulate_hour_continues o npcs h hour r npc Hl) as (n1 & Hl1 & H1).
    destruct (IH _ _ Hl1) as (n2 & Hl2 & H2).
    exists n2. split; [exact Hl2 |].
    change (continues npc n2). transitivity n1; [exact H1 | exact H2].
Qed.

Lemma simulate_day_continues_witness :
  exists npc',
    simulate_day silent main_npcs 24 main_heap !! 1%nat = Some npc'
    /\ NPCState.name npc' = "Alice".
Proof.
  destruct (simulate_day_continues silent main_npcs 24 main_heap 1%nat
              (NPCState.new "npc2" "Alice" 50 50 50 "lazy") eq_refl)
    as (npc' & Hl & _ & Hname & _).
  exists npc'. split; [exact Hl | exact Hname].
Defined.

(** ** Starvation *)

(** No entry of the world takes more than 5 from food. *)
Lemma WORLD_food_deltas :
  Forall (fun act => Forall (fun e => e.1 = Food -> -5 <= e.2) (Act.effects act))
    WORLD_actions.
Proof. apply (bool_decide_unpack _). vm_compute. exact I. Qed.

Lemma apply_action_food_floor (npc : NPCState.t) (action : Action.t) :
  15 <= NPCState.food npc -> 10 <= NPCState.food (apply_action npc action).
Proof.
  intros Hf. destruct (resolve action) as [pa|] eqn:Hres.
  - change (NPCState.food ?n) with (getattr n Food).
    destruct (decide (Food ∈ (Act.effects pa).*1)) as [Hin | Hout].
    + apply list_elem_of_fmap in Hin as ([s change] & Hs & Hin). cbn in Hs. subst s.
      rewrite (apply_action_exact npc action pa Food change Hres Hin).
      pose proof WORLD_food_deltas as Hd. rewrite Forall_forall in Hd.
      specialize (Hd pa (resolve_catalogue action pa Hres)).
      rewrite Forall_forall in Hd. specialize (Hd (Food, change) Hin eq_refl).
      unfold clamp. cbn [getattr] in *. cbn in Hd. lia.
    + rewrite apply_action_resolve, Hres, perform_getattr.
      rewrite apply_effects_untouched by exact Hout. cbn [getattr]. lia.
  - rewrite apply_action_resolve, Hres. lia.
Qed.

Lemma decide_and_act_food_floor (o : Collaborator) (hour : Z) (i : nat)
    (npc : NPCState.t) :
  0 <= NPCState.food npc -> 10 <= NPCState.food (decide_and_act o hour i npc).
Proof.
  intros Hf. unfold decide_and_act.
  set (npc_h := Set_.current_hour hour npc).
  assert (NPCState.food npc_h = NPCState.food npc) as Hsame by reflexivity.
  unfold hybrid_decision.
  destruct (Z.ltb_spec (NPCState.food npc_h) 15) as [Hlow | Hok].
  - change (NPCState.food ?n) with (getattr n Food).
    erewrite apply_action_exact; [| reflexivity | apply list_elem_of_here].
    unfold clamp. cbn [getattr]. lia.
  - destruct (NPCState.rest npc_h <? 20); [apply apply_action_food_floor, Hok |].
    destruct (NPCState.money npc_h <? 5); [apply apply_action_food_floor, Hok |].
    destruct (kickoff o hour i npc_h); apply apply_action_food_floor, Hok.
Qed.

Lemma simulate_hour_food_floor (o : Collaborator) (npcs : list nat) (h : heap)
    (hour : Z) (r : nat) (npc' : NPCState.t) :
  r ∈ npcs -> simulate_hour o npcs h hour !! r = Some npc' ->
  10 <= NPCState.food npc'.
Proof.
  intros Hr. unfold simulate_hour, for_each.
  apply (for_each_from_listed (decide_and_act o hour)
           (fun n => 0 <= NPCState.food n) (fun n => 10 <= NPCState.food n));
    [| | | exact Hr].
  - intros j n. apply decide_and_act_food_floor.
  - intros n. lia.
  - intros r1 n Hr1. apply (for_each_from_established (fun _ => metabolism)
                              (fun n => 0 <= NPCState.food n)); [| exact Hr1].
    intros _ n0. simpl. lia.
Qed.

(** X11.  No NPC of the list ends a day of at least one hour with food
    below 10, whatever food it started with, whatever the collaborator
    answers, and even when the list names it twice: metabolism stops at
    0, below 15 the gate forces a meal of 100, and from 15 up no entry of
    the world takes more than 5.  So the six-hour mark of such an NPC is
    the skull only when rest is below 10. *)
Theorem nobody_starves (o : Collaborator) (npcs : list nat) (hours : Z)
    (h : heap) (r : nat) (npc' : NPCState.t) :
  1 <= hours ->
  r ∈ npcs ->
  simulate_day o npcs hours h !! r = Some npc' ->
  10 <= NPCState.food npc'
  /\ six_hour_mark npc' = (if NPCState.rest npc' <? 10 then skull else check_mark).
Proof.
  intros Hh Hr Hl. rewrite simulate_day_last in Hl by exact Hh.
  apply simulate_hour_food_floor in Hl; [| exact Hr].
  split; [exact Hl |]. unfold six_hour_mark.
  destruct (Z.ltb_spec (NPCState.food npc') 10); [lia | reflexivity].
Qed.

Lemma nobody_starves_witness :
  exists npc', max_after_day = Some npc' /\ 10 <= NPCState.food npc'.
Proof.
  eexists. split; [vm_compute; reflexivity |].
  apply (nobody_starves walker [0%nat] 24 {[ 0%nat := max_npc ]} 0%nat).
  - discriminate.
  - apply list_elem_of_here.
  - vm_compute. reflexivity.
Defined.

(** ** One NPC at a time *)

Lemma simulate_hour_NoDup (o : Collaborator) (npcs : list nat) (h : heap)
    (hour : Z) (k r : nat) :
  NoDup npcs -> npcs !! k = Some r ->
  simulate_hour o npcs h hour !! r = (fun npc => npc_hour o k npc hour) <$> h !! r.
Proof.
  intros Hnd Hk. unfold simulate_hour, for_each.
  rewrite !(for_each_from_NoDup _ 0 k) by assumption.
  unfold start_of_hour, for_each, npc_hour.
  case_bool_decide.
  - rewrite (for_each_from_NoDup _ 0 k) by assumption.
    destruct (h !! r); reflexivity.
  - destruct (h !! r); reflexivity.
Qed.

Lemma simulate_day_NoDup (o : Collaborator) (npcs : list nat) (hours : Z)
    (h : heap) (k r : nat) :
  NoDup npcs -> npcs !! k = Some r ->
  simulate_day o npcs hours h !! r = npc_day o k hours <$> h !! r.
Proof.
  intros Hnd Hk. unfold simulate_day, npc_day. generalize (seqZ 0 hours) as hs.
  intros hs; revert h; induction hs as [|hour hs IH]; intros h; simpl.
  - destruct (h !! r); reflexivity.
  - rewrite IH, (simulate_hour_NoDup o npcs h hour k r Hnd Hk).
    destruct (h !! r); reflexivity.
Qed.

(** X12.  When the list names no object twice, the NPCs do not
    interact: what the day makes of the NPC at position k is its own
    hourly steps (reset at hour 0, metabolism, decision) folded over the
    hours, a function of its own start state and of the collaborator's
    answers for position k alone. *)
Theorem npcs_are_independent (o : Collaborator) (npcs : list nat) (hours : Z)
    (h : heap) (k r : nat) :
  NoDup npcs ->
  npcs !! k = Some r ->
  simulate_day o npcs hours h !! r = npc_day o k hours <$> h !! r.
Proof.
  intros Hnd Hk. unfold simulate_day, npc_day. generalize (seqZ 0 hours) as hs.
  intros hs; revert h; induction hs as [|hour hs IH]; intros h.
  - cbn [fold_left]. destruct (h !! r); reflexivity.
  - cbn [fold_left]. rewrite IH, (simulate_hour_NoDup o npcs h hour k r Hnd Hk).
    destruct (h !! r); reflexivity.
Qed.

Lemma npcs_are_independent_witness :
  simulate_day walker main_npcs 24 main_heap !! 2%nat
  = npc_day walker 2 24 <$> main_heap !! 2%nat.
Proof.
  apply (npcs_are_independent walker main_npcs 24 main_heap 2 2).
  - repeat (apply NoDup_cons_2; [intros H; repeat (apply elem_of_cons in H as [H | H];
      [discriminate |]); apply elem_of_nil in H; exact H |]).
    apply NoDup_nil_2.
  - reflexivity.
Defined.

Example shared_object_decays_twice :
  NPCState.food <$> simulate_hour silent [0%nat; 0%nat] {[ 0%nat := max_npc ]} 1 !! 0%nat
  = Some 40.
Proof. vm_compute. reflexivity. Qed.

(** ** Counters of the day *)

Lemma apply_action_counters (npc : NPCState.t) (action : Action.t) :
  NPCState.current_hour (apply_action npc action) = NPCState.current_hour npc
  /\ NPCState.daily_hours_worked npc
     <= NPCState.daily_hours_worked (apply_action npc action)
     <= NPCState.daily_hours_worked npc + 1
  /\ (length (NPCState.action_history (apply_action npc action))
      <= length (NPCState.action_history npc) + 1)%nat.
Proof.
  destruct (resolve action) as [pa|] eqn:Hres; rewrite apply_action_resolve, Hres;
    [| split_and!; (reflexivity || lia)].
  pose proof WORLD_durations as Hd. rewrite Forall_forall in Hd.
  specialize (Hd pa (resolve_catalogue action pa Hres)).
  pose proof (perform_bystanders npc action pa) as H.
  set (npc' := perform npc action pa) in *.
  unfold bystanders in H. injection H as _ _ _ Hhour Hwork Hhist _.
  split_and!.
  - exact Hhour.
  - transitivity (if is_work pa then NPCState.daily_hours_worked npc + Act.duration pa
                  else NPCState.daily_hours_worked npc);
      [destruct (is_work pa); lia | rewrite <- Hwork; reflexivity].
  - transitivity (if is_work pa then NPCState.daily_hours_worked npc + Act.duration pa
                  else NPCState.daily_hours_worked npc);
      [rewrite <- Hwork; reflexivity | destruct (is_work pa); lia].
  - assert (NPCState.action_history npc'
            = NPCState.action_history npc ++ [history_token npc pa]) as -> by exact Hhist.
    rewrite length_app. simpl. lia.
Qed.

Lemma decide_and_act_counters (o : Collaborator) (hour : Z) (i : nat)
    (npc : NPCState.t) :
  NPCState.current_hour (decide_and_act o hour i npc) = hour
  /\ NPCState.daily_hours_worked npc
     <= NPCState.daily_hours_worked (decide_and_act o hour i npc)
     <= NPCState.daily_hours_worked npc + 1
  /\ (length (NPCState.action_history (decide_and_act o hour i npc))
      <= length (NPCState.action_history npc) + 1)%nat.
Proof.
  unfold decide_and_act.
  destruct (hybrid_decision _) as [forced|]; [| destruct (kickoff _ _ _ _) as [a|]];
    match goal with
    | |- context [apply_action ?n ?a] => exact (apply_action_counters n a)
    end.
Qed.

Lemma npc_hour_counters (o : Collaborator) (i : nat) (npc : NPCState.t) (hour : Z) :
  NPCState.current_hour (npc_hour o i npc hour) = hour
  /\ (hour = 0 -> 0 <= NPCState.daily_hours_worked (npc_hour o i npc hour) <= 1)
  /\ (hour <> 0 ->
      NPCState.daily_hours_worked npc
      <= NPCState.daily_hours_worked (npc_hour o i npc hour)
      <= NPCState.daily_hours_worked npc + 1)
  /\ (length (NPCState.action_history (npc_hour o i npc hour))
      <= length (NPCState.action_history npc) + 1)%nat.
Proof.
  unfold npc_hour.
  destruct (decide_and_act_counters o hour i
              (metabolism (if bool_decide (hour = 0) then new_day npc else npc)))
    as (Hhour & Hwork & Hhist).
  split_and!; [exact Hhour | | |].
  - intros ->. rewrite bool_decide_eq_true_2 in Hwork by reflexivity. exact Hwork.
  - intros Hne. rewrite bool_decide_eq_false_2 in Hwork |- * by exact Hne.
    exact Hwork.
  - destruct (bool_decide (hour = 0)); exact Hhist.
Qed.

Lemma npc_hours_counters (o : Collaborator) (i : nat) (hs : list Z) (npc : NPCState.t) :
  Forall (fun hour => hour <> 0) hs ->
  NPCState.daily_hours_worked npc
  <= NPCState.daily_hours_worked (fold_left (npc_hour o i) hs npc)
  <= NPCState.daily_hours_worked npc + Z.of_nat (length hs).
Proof.
  intros Hnz. revert npc; induction Hnz as [|hour hs Hne Hnz IH]; intros npc.
  - simpl. lia.
  - cbn [fold_left length].
    destruct (npc_hour_counters o i npc hour) as (_ & _ & Hstep & _).
    specialize (Hstep Hne). specialize (IH (npc_hour o i npc hour)). lia.
Qed.

Lemma npc_day_worked (o : Collaborator) (i : nat) (hours : Z) (npc : NPCState.t) :
  1 <= hours -> 0 <= NPCState.daily_hours_worked (npc_day o i hours npc) <= hours.
Proof.
  intros Hh. unfold npc_day. rewrite seqZ_cons by lia. cbn [fold_left].
  destruct (npc_hour_counters o i npc 0) as (_ & Hzero & _).
  specialize (Hzero eq_refl).
  pose proof (npc_hours_counters o i (seqZ (Z.succ 0) (Z.pred hours))
                (npc_hour o i npc 0)) as Hrest.
  rewrite length_seqZ in Hrest.
  assert (Forall (fun hour => hour <> 0) (seqZ (Z.succ 0) (Z.pred hours))) as Hnz
    by (apply Forall_seqZ; lia).
  specialize (Hrest Hnz). lia.
Qed.

Lemma npc_day_history_length (o : Collaborator) (i : nat) (hours : Z)
    (npc : NPCState.t) :
  (length (NPCState.action_history (npc_day o i hours npc))
   <= length (NPCState.action_history npc) + Z.to_nat hours)%nat.
Proof.
  unfold npc_day. rewrite <- (length_seqZ 0 hours). generalize (seqZ 0 hours) as hs.
  intros hs; revert npc; induction hs as [|hour hs IH]; intros npc.
  - simpl. lia.
  - cbn [fold_left length].
    destruct (npc_hour_counters o i npc hour) as (_ & _ & _ & Hstep).
    specialize (IH (npc_hour o i npc hour)). lia.
Qed.

(** X13.  On a list that names no object twice, after a day of at least
    one hour the worked-hours counter of every listed NPC lies between 0
    and the number of hours, whatever it was before the day and whatever
    the collaborator answers. *)
Theorem worked_hours_within_day (o : Collaborator) (npcs : list nat) (hours : Z)
    (h : heap) (k r : nat) (npc' : NPCState.t) :
  NoDup npcs ->
  npcs !! k = Some r ->
  1 <= hours ->
  simulate_day o npcs hours h !! r = Some npc' ->
  0 <= NPCState.daily_hours_worked npc' <= hours.
Proof.
  intros Hnd Hk Hh Hl. rewrite (simulate_day_NoDup o npcs hours h k r Hnd Hk) in Hl.
  destruct (h !! r) as [npc|]; [| discriminate]. injection Hl as <-.
  apply npc_day_worked, Hh.
Qed.

(** X14.  On a list that names no object twice, a day adds at most one
    history token per hour to every listed NPC. *)
Theorem history_grows_by_hours (o : Collaborator) (npcs : list nat) (hours : Z)
    (h : heap) (k r : nat) (npc npc' : NPCState.t) :
  NoDup npcs ->
  npcs !! k = Some r ->
  h !! r = Some npc ->
  simulate_day o npcs hours h !! r = Some npc' ->
  (length (NPCState.action_history npc')
   <= length (NPCState.action_history npc) + Z.to_nat hours)%nat.
Proof.
  intros Hnd Hk Hr Hl. rewrite (simulate_day_NoDup o npcs hours h k r Hnd Hk), Hr in Hl.
  injection Hl as <-. apply npc_day_history_length.
Qed.

Lemma worked_hours_within_day_witness :
  exists npc',
    simulate_day walker main_npcs 24 main_heap !! 0%nat = Some npc'
    /\ 0 <= NPCState.daily_hours_worked npc' <= 24.
Proof.
  eexists. split; [vm_compute; reflexivity |].
  apply (worked_hours_within_day walker main_npcs 24 main_heap 0 0).
  - apply (bool_decide_unpack _). vm_compute. exact I.
  - reflexivity.
  - discriminate.
  - vm_compute. reflexivity.
Defined.

Lemma history_grows_by_hours_witness :
  exists npc',
    simulate_day silent main_npcs 24 main_heap !! 1%nat = Some npc'
    /\ (length (NPCState.action_history npc') <= 0 + Z.to_nat 24)%nat.
Proof.
  eexists. split; [vm_compute; reflexivity |].
  apply (history_grows_by_hours silent main_npcs 24 main_heap 1 1
           (NPCState.new "npc2" "Alice" 50 50 50 "lazy")).
  - apply (bool_decide_unpack _). vm_compute. exact I.
  - reflexivity.
  - reflexivity.
  - vm_compute. reflexivity.
Defined.

Lemma simulate_hour_current_hour (o : Collaborator) (npcs : list nat) (h : heap)
    (hour : Z) (r : nat) (npc' : NPCState.t) :
  r ∈ npcs -> simulate_hour o npcs h hour !! r = Some npc' ->
  NPCState.current_hour npc' = hour.
Proof.
  intros Hr. unfold simulate_hour, for_each.
  apply (for_each_from_established (decide_and_act o hour)
           (fun n => NPCState.current_hour n = hour)); [| exact Hr].
  intros j n. apply decide_and_act_counters.
Qed.

(** X15.  After a day of at least one hour, the hour counter of every
    NPC of the list is the last hour of the day, hours - 1. *)
Theorem current_hour_after_day (o : Collaborator) (npcs : list nat) (hours : Z)
    (h : heap) (r : nat) (npc' : NPCState.t) :
  1 <= hours ->
  r ∈ npcs ->
  simulate_day o npcs hours h !! r = Some npc' ->
  NPCState.current_hour npc' = hours - 1.
Proof.
  intros Hh Hr Hl. rewrite simulate_day_last in Hl by exact Hh.
  eapply simulate_hour_current_hour; eassumption.
Qed.

Lemma current_hour_after_day_witness :
  exists npc', max_after_day = Some npc' /\ NPCState.current_hour npc' = 24 - 1.
Proof.
  eexists. split; [vm_compute; reflexivity |].
  apply (current_hour_after_day walker [0%nat] 24 {[ 0%nat := max_npc ]} 0%nat).
  - discriminate.
  - apply list_elem_of_here.
  - vm_compute. reflexivity.
Defined.

(** ** History tokens *)

Lemma colon_free_digit (d : N) (s : string) :
  colon_free (String (pretty_N_char d) s) = colon_free s.
Proof. unfold pretty_N_char. repeat case_match; reflexivity. Qed.

Lemma colon_free_pretty_N_go (x : N) (s : string) :
  colon_free s = true -> colon_free (pretty_N_go x s) = true.
Proof.
  revert s. induction (N.lt_wf_0 x) as [x _ IH]; intros s Hs.
  destruct (decide (x = 0)%N) as [-> | Hx]; [rewrite pretty_N_go_0; exact Hs |].
  rewrite pretty_N_go_step by lia. apply IH.
  - apply N.div_lt; lia.
  - rewrite colon_free_digit. exact Hs.
Qed.

Lemma colon_free_str_of_int (z : Z) : colon_free (str_of_int z) = true.
Proof.
  assert (forall p : positive, colon_free (pretty p) = true) as Hpos.
  { intros p. unfold pretty, pretty_positive, pretty, pretty_N.
    case_decide; [reflexivity | apply colon_free_pretty_N_go; reflexivity]. }
  unfold str_of_int, pretty, pretty_Z. destruct z as [|p|p].
  - reflexivity.
  - apply Hpos.
  - rewrite append_cons, append_nil_l. cbn [colon_free]. rewrite Hpos. reflexivity.
Qed.

(** Two texts cut at their first colon are equal only part by part. *)
Lemma colon_split (s1 s2 t1 t2 : string) :
  colon_free s1 = true -> colon_free s2 = true ->
  s1 +:+ String ":" t1 = s2 +:+ String ":" t2 ->
  s1 = s2 /\ t1 = t2.
Proof.
  revert s2; induction s1 as [|c1 s1 IH]; intros [|c2 s2] H1 H2 E;
    rewrite ?append_cons, ?append_nil_l in E; cbn [colon_free] in H1, H2.
  - injection E as ->. split; reflexivity.
  - injection E as <- _. discriminate H2.
  - injection E as -> _. discriminate H1.
  - injection E as -> E. apply andb_prop in H1 as [_ H1]. apply andb_prop in H2 as [_ H2].
    destruct (IH s2 H1 H2 E) as [-> ->]. split; reflexivity.
Qed.

Lemma token_action_after_colon (s t : string) :
  colon_free s = true -> token_action (s +:+ String ":" t) = t.
Proof.
  induction s as [|c s IH]; intros Hs; rewrite ?append_cons, ?append_nil_l.
  - reflexivity.
  - cbn [colon_free] in Hs. apply andb_prop in Hs as [Hc Hs].
    cbn [token_action]. apply negb_true_iff in Hc. rewrite Hc. apply IH, Hs.
Qed.

Lemma token_of_inj (hour1 hour2 : Z) (name1 name2 : string) :
  token_of hour1 name1 = token_of hour2 name2 -> hour1 = hour2 /\ name1 = name2.
Proof.
  unfold token_of. rewrite !append_cons, !append_nil_l. intros [= E].
  apply colon_split in E as [E ->]; [| apply colon_free_str_of_int..].
  split; [| reflexivity]. apply (inj pretty), E.
Qed.

(** X16.  A history token tells its hour and its action name: the name
    is what follows the first colon, and two tokens are equal only when
    they were written in the same hour for entries of the same name. *)
Theorem history_token_decodes (npc1 npc2 : NPCState.t) (pa1 pa2 : Act.t) :
  token_action (history_token npc1 pa1) = Act.name pa1
  /\ (history_token npc1 pa1 = history_token npc2 pa2 ->
      NPCState.current_hour npc1 = NPCState.current_hour npc2
      /\ Act.name pa1 = Act.name pa2).
Proof.
  split.
  - unfold history_token. rewrite append_cons, append_nil_l. cbn [token_action].
    apply token_action_after_colon, colon_free_str_of_int.
  - apply token_of_inj.
Qed.

Lemma history_token_decodes_witness :
  history_token max_npc (Act.mk "sleep" [(Rest, 40)] 1)
  = history_token tired_max (Act.mk "sleep" [(Rest, 15)] 7)
  /\ NPCState.current_hour max_npc = NPCState.current_hour tired_max.
Proof.
  split; [reflexivity |].
  apply (history_token_decodes max_npc tired_max (Act.mk "sleep" [(Rest, 40)] 1)
           (Act.mk "sleep" [(Rest, 15)] 7)).
  reflexivity.
Defined.

(** ** The statistic of a day *)

Lemma length_remove_dups (l : list string) : (length (remove_dups l) <= length l)%nat.
Proof.
  induction l as [|x l IH]; simpl; [lia |].
  destruct (decide_rel elem_of x l); simpl; lia.
Qed.

Lemma remove_dups_nil_inv (l : list string) : remove_dups l = [] -> l = [].
Proof.
  destruct l as [|x l]; [reflexivity |]. intros E.
  assert (x ∈ remove_dups (x :: l)) as Hx by (apply elem_of_remove_dups; set_solver).
  rewrite E in Hx. apply elem_of_nil in Hx. contradiction.
Qed.

Lemma ratio_as_fraction (a b : Z) :
  1 <= b -> inject_Z a / inject_Z b == a # Z.to_pos b.
Proof.
  intros Hb. rewrite Qmake_Qdiv. rewrite Z2Pos.id by lia. reflexivity.
Qed.

(** X17.  The statistic is a fraction between 0 and 1; it is 0 exactly
    for an NPC whose history is empty, where max(1, .) keeps the
    division from dividing by zero. *)
Theorem diversity_bounds (npc : NPCState.t) :
  (0 <= diversity npc <= 1)%Q
  /\ (diversity npc == 0 <-> NPCState.action_history npc = []).
Proof.
  unfold diversity.
  pose proof (length_remove_dups (NPCState.action_history npc)) as Hle.
  rewrite ratio_as_fraction by lia.
  split; [split |]; unfold Qle, Qeq; cbn [Qnum Qden]; rewrite ?Z2Pos.id by lia;
    try lia.
  split.
  - intros E. apply remove_dups_nil_inv.
    destruct (remove_dups (NPCState.action_history npc)); [reflexivity |].
    simpl in E. lia.
  - intros ->. reflexivity.
Qed.

Lemma diversity_bounds_witness : diversity max_npc == 0.
Proof. apply (proj2 (proj2 (diversity_bounds max_npc))). reflexivity. Defined.

(** In one decision the history gains nothing, or one token of the hour. *)
Lemma decide_and_act_history (o : Collaborator) (hour : Z) (i : nat)
    (npc : NPCState.t) :
  NPCState.action_history (decide_and_act o hour i npc) = NPCState.action_history npc
  \/ exists name,
       NPCState.action_history (decide_and_act o hour i npc)
       = NPCState.action_history npc ++ [token_of hour name].
Proof.
  unfold decide_and_act. set (npc_h := Set_.current_hour hour npc).
  assert (forall a,
            NPCState.action_history (apply_action npc_h a) = NPCState.action_history npc
            \/ exists name, NPCState.action_history (apply_action npc_h a)
                 = NPCState.action_history npc ++ [token_of hour name]) as Hany.
  { intros a. rewrite apply_action_resolve. destruct (resolve a) as [pa|]; [| left; reflexivity].
    right. exists (Act.name pa).
    pose proof (perform_bystanders npc_h a pa) as H.
    set (npc' := perform npc_h a pa) in *.
    unfold bystanders in H. injection H as _ _ _ _ _ Hhist _. exact Hhist. }
  destruct (hybrid_decision npc_h); [| destruct (kickoff o hour i npc_h)]; apply Hany.
Qed.

Lemma npc_hour_tokens (o : Collaborator) (i : nat) (npc : NPCState.t) (hour bound : Z) :
  bound <= hour ->
  NoDup (NPCState.action_history npc) ->
  Forall (fun token => exists h name, token = token_of h name /\ h < bound)
    (NPCState.action_history npc) ->
  NoDup (NPCState.action_history (npc_hour o i npc hour))
  /\ Forall (fun token => exists h name, token = token_of h name /\ h < hour + 1)
       (NPCState.action_history (npc_hour o i npc hour)).
Proof.
  intros Hb Hnd Hall. unfold npc_hour.
  set (fed := metabolism (if bool_decide (hour = 0) then new_day npc else npc)).
  assert (NPCState.action_history fed = NPCState.action_history npc) as Hfed
    by (unfold fed; destruct (bool_decide (hour = 0)); reflexivity).
  assert (Forall (fun token => exists h name, token = token_of h name /\ h < hour + 1)
            (NPCState.action_history npc)) as Hall'.
  { eapply Forall_impl; [exact Hall |]. intros token (h & name & -> & Hh).
    exists h, name. split; [reflexivity | lia]. }
  destruct (decide_and_act_history o hour i fed) as [-> | [name ->]]; rewrite Hfed.
  - split; assumption.
  - split.
    + apply NoDup_app. split_and!; [exact Hnd | | apply NoDup_singleton].
      intros token Hin ->%list_elem_of_singleton.
      rewrite Forall_forall in Hall. destruct (Hall _ Hin) as (h & name' & E & Hh).
      apply token_of_inj in E as [<- _]. lia.
    + apply Forall_app. split; [exact Hall' |].
      apply Forall_singleton. exists hour, name. split; [reflexivity | lia].
Qed.

Lemma npc_hours_tokens (o : Collaborator) (i : nat) (n : nat) (start : Z)
    (npc : NPCState.t) :
  NoDup (NPCState.action_history npc) ->
  Forall (fun token => exists h name, token = token_of h name /\ h < start)
    (NPCState.action_history npc) ->
  NoDup (NPCState.action_history
           (fold_left (npc_hour o i) (seqZ start (Z.of_nat n)) npc)).
Proof.
  revert start npc; induction n as [|n IH]; intros start npc Hnd Hall.
  - exact Hnd.
  - rewrite seqZ_cons by lia. cbn [fold_left].
    replace (Z.pred (Z.of_nat (S n))) with (Z.of_nat n) by lia.
    destruct (npc_hour_tokens o i npc start start (Z.le_refl _) Hnd Hall) as [Hnd' Hall'].
    apply IH; [exact Hnd' |]. replace (Z.succ start) with (start + 1) by lia. exact Hall'.
Qed.

Lemma npc_day_tokens (o : Collaborator) (i : nat) (hours : Z) (npc : NPCState.t) :
  NPCState.action_history npc = [] ->
  NoDup (NPCState.action_history (npc_day o i hours npc)).
Proof.
  intros Hempty. unfold npc_day.
  destruct (Z.le_gt_cases hours 0) as [Hle | Hgt].
  - rewrite seqZ_nil by exact Hle. simpl. rewrite Hempty. apply NoDup_nil_2.
  - rewrite <- (Z2Nat.id hours) by lia.
    apply npc_hours_tokens; rewrite Hempty; constructor.
Qed.

(** X18.  On a list that names no object twice, an NPC that starts the
    day with an empty history ends it with no token twice in its
    history, whatever the collaborator answers; so the action diversity
    the program prints for it is 1 as soon as one action was recorded,
    however few different actions were taken. *)
Theorem fresh_day_diversity (o : Collaborator) (npcs : list nat) (hours : Z)
    (h : heap) (k r : nat) (npc npc' : NPCState.t) :
  NoDup npcs ->
  npcs !! k = Some r ->
  h !! r = Some npc ->
  NPCState.action_history npc = [] ->
  simulate_day o npcs hours h !! r = Some npc' ->
  NoDup (NPCState.action_history npc')
  /\ (NPCState.action_history npc' <> [] -> diversity npc' == 1).
Proof.
  intros Hnd Hk Hr Hempty Hl.
  rewrite (simulate_day_NoDup o npcs hours h k r Hnd Hk), Hr in Hl. injection Hl as <-.
  pose proof (npc_day_tokens o k hours npc Hempty) as Htok.
  split; [exact Htok | apply diversity_NoDup, Htok].
Qed.

Lemma fresh_day_diversity_witness :
  exists npc',
    simulate_day walker main_npcs 24 main_heap !! 2%nat = Some npc'
    /\ NoDup (NPCState.action_history npc').
Proof.
  eexists. split; [vm_compute; reflexivity |].
  apply (fresh_day_diversity walker main_npcs 24 main_heap 2 2
           (NPCState.new "npc3" "Bob" 50 50 50 "foodie")).
  - apply (bool_decide_unpack _). vm_compute. exact I.
  - reflexivity.
  - reflexivity.
  - reflexivity.
  - vm_compute. reflexivity.
Defined.

Lemma simulate_day_in_range_witness :
  heap_in_range main_heap
  /\ heap_in_range (simulate_day walker main_npcs 24 main_heap).
Proof.
  assert (heap_in_range main_heap) as H.
  { intros r npc Hl. unfold main_heap in Hl.
    apply lookup_insert_Some in Hl as [[_ <-] | [_ Hl]]; [repeat split; discriminate |].
    apply lookup_insert_Some in Hl as [[_ <-] | [_ Hl]]; [repeat split; discriminate |].
    apply lookup_singleton_Some in Hl as [_ <-]. repeat split; discriminate. }
  split; [exact H |].
  apply (simulate_day_in_range walker main_npcs 24 main_heap H).
Defined.

(** ** The two reports *)

(** X19.  The mark of the six-hour report is stricter than the mark of
    the day-end list: whoever the six-hour rule marks alive, the day-end
    rule marks alive; but an NPC with food between 1 and 9 and some rest
    left gets the skull in the six-hour report and the check mark in the
    day-end list. *)
Theorem six_hour_mark_is_stricter (npc : NPCState.t) :
  (six_hour_mark npc = check_mark -> day_end_mark npc = check_mark)
  /\ (0 < NPCState.food npc < 10 -> 0 < NPCState.rest npc ->
      six_hour_mark npc = skull /\ day_end_mark npc = check_mark).
Proof.
  unfold six_hour_mark, day_end_mark.
  destruct (Z.ltb_spec (NPCState.food npc) 10), (Z.ltb_spec (NPCState.rest npc) 10),
    (Z.ltb_spec 0 (NPCState.food npc)), (Z.ltb_spec 0 (NPCState.rest npc));
    cbn [orb andb]; split; intros; try lia; try discriminate; try split; reflexivity.
Qed.

Lemma six_hour_mark_is_stricter_witness :
  six_hour_mark (NPCState.new "npc3" "Bob" 50 5 50 "foodie") = skull
  /\ day_end_mark (NPCState.new "npc3" "Bob" 50 5 50 "foodie") = check_mark.
Proof.
  apply (six_hour_mark_is_stricter (NPCState.new "npc3" "Bob" 50 5 50 "foodie")).
  - split; reflexivity.
  - reflexivity.
Defined.

(** ** What the decision reads *)

(** X20.  apply_action reads only the place and the action name of an
    Action: the npc_id, the proposed duration, the reason and the
    confidence change nothing, so an Action addressed to another NPC is
    applied all the same, and the duration counted is the catalogue's. *)
Theorem apply_action_reads_place_and_name (npc : NPCState.t) (a1 a2 : Action.t) :
  Action.place a1 = Action.place a2 ->
  Action.action a1 = Action.action a2 ->
  apply_action npc a1 = apply_action npc a2.
Proof.
  intros Hplace Hname. unfold apply_action, place_key, perform.
  rewrite Hplace, Hname. reflexivity.
Qed.

Lemma apply_action_reads_place_and_name_witness :
  apply_action max_npc (Action.mk "npc1" "sleep" "Home" 1 "tired" 1%Q)
  = apply_action max_npc (Action.mk "npc2" "sleep" "Home" 8 "a long night" (1 # 10)%Q).
Proof. apply apply_action_reads_place_and_name; reflexivity. Defined.

(** X21.  When one of the three thresholds fails after the hour was
    stamped, the collaborator and the random generator are not
    consulted: the decision is the same under any two of them. *)
Theorem gate_overrides_collaborator (o1 o2 : Collaborator) (hour : Z) (i : nat)
    (npc : NPCState.t) :
  NPCState.food npc < 15 \/ NPCState.rest npc < 20 \/ NPCState.money npc < 5 ->
  decide_and_act o1 hour i npc = decide_and_act o2 hour i npc.
Proof.
  intros Hlow. unfold decide_and_act, hybrid_decision.
  cbn [Set_.current_hour NPCState.food NPCState.rest NPCState.money].
  destruct (Z.ltb_spec (NPCState.food npc) 15); [reflexivity |].
  destruct (Z.ltb_spec (NPCState.rest npc) 20); [reflexivity |].
  destruct (Z.ltb_spec (NPCState.money npc) 5); [reflexivity | lia].
Qed.

Lemma gate_overrides_collaborator_witness :
  decide_and_act walker 3 0%nat broke_max = decide_and_act silent 3 0%nat broke_max.
Proof.
  apply gate_overrides_collaborator. right. right. reflexivity.
Defined.

(** ** Exhaustion *)

(** No entry of the world takes more than 5 from rest. *)
Lemma WORLD_rest_deltas :
  Forall (fun act => Forall (fun e => e.1 = Rest -> -5 <= e.2) (Act.effects act))
    WORLD_actions.
Proof. apply (bool_decide_unpack _). vm_compute. exact I. Qed.

Lemma apply_action_rest_floor (npc : NPCState.t) (action : Action.t) :
  20 <= NPCState.rest npc -> 15 <= NPCState.rest (apply_action npc action).
Proof.
  intros Hr. destruct (resolve action) as [pa|] eqn:Hres.
  - change (NPCState.rest ?n) with (getattr n Rest).
    destruct (decide (Rest ∈ (Act.effects pa).*1)) as [Hin | Hout].
    + apply list_elem_of_fmap in Hin as ([s change] & Hs & Hin). cbn in Hs. subst s.
      rewrite (apply_action_exact npc action pa Rest change Hres Hin).
      pose proof WORLD_rest_deltas as Hd. rewrite Forall_forall in Hd.
      specialize (Hd pa (resolve_catalogue action pa Hres)).
      rewrite Forall_forall in Hd. specialize (Hd (Rest, change) Hin eq_refl).
      unfold clamp. cbn [getattr] in *. cbn in Hd. lia.
    + rewrite apply_action_resolve, Hres, perform_getattr.
      rewrite apply_effects_untouched by exact Hout. cbn [getattr]. lia.
  - rewrite apply_action_resolve, Hres. lia.
Qed.

(** After a decision on an NPC whose food and rest are not negative:
    rest below 15 means the NPC was fed by force. *)
Lemma decide_and_act_tired (o : Collaborator) (hour : Z) (i : nat) (npc : NPCState.t) :
  0 <= NPCState.food npc -> 0 <= NPCState.rest npc ->
  NPCState.rest (decide_and_act o hour i npc) < 15 ->
  100 <= NPCState.food (decide_and_act o hour i npc).
Proof.
  intros Hf Hr. unfold decide_and_act. set (npc_h := Set_.current_hour hour npc).
  assert (NPCState.food npc_h = NPCState.food npc) as Hfood by reflexivity.
  assert (NPCState.rest npc_h = NPCState.rest npc) as Hrest by reflexivity.
  unfold hybrid_decision.
  destruct (Z.ltb_spec (NPCState.food npc_h) 15) as [Hlow | Hok].
  - intros _. change (NPCState.food ?n) with (getattr n Food).
    erewrite apply_action_exact; [| reflexivity | apply list_elem_of_here].
    unfold clamp. cbn [getattr]. lia.
  - destruct (Z.ltb_spec (NPCState.rest npc_h) 20) as [Htired | Hfit].
    + change (NPCState.rest ?n) with (getattr n Rest) at 1.
      erewrite apply_action_exact; [| reflexivity | apply list_elem_of_here].
      unfold clamp. cbn [getattr]. lia.
    + intros Hlt. exfalso. revert Hlt. apply Z.le_ngt.
      destruct (NPCState.money npc_h <? 5); [apply apply_action_rest_floor, Hfit |].
      destruct (kickoff o hour i npc_h); apply apply_action_rest_floor, Hfit.
Qed.

(** After a decision on a well-fed NPC short of rest, rest is 40 or more. *)
Lemma decide_and_act_sleeps (o : Collaborator) (hour : Z) (i : nat) (npc : NPCState.t) :
  15 <= NPCState.food npc -> 0 <= NPCState.rest npc < 20 ->
  40 <= NPCState.rest (decide_and_act o hour i npc).
Proof.
  intros Hf Hr. unfold decide_and_act. set (npc_h := Set_.current_hour hour npc).
  assert (NPCState.food npc_h = NPCState.food npc) as Hfood by reflexivity.
  assert (NPCState.rest npc_h = NPCState.rest npc) as Hrest by reflexivity.
  unfold hybrid_decision.
  destruct (Z.ltb_spec (NPCState.food npc_h) 15); [lia |].
  destruct (Z.ltb_spec (NPCState.rest npc_h) 20); [| lia].
  change (NPCState.rest ?n) with (getattr n Rest).
  erewrite apply_action_exact; [| reflexivity | apply list_elem_of_here].
  unfold clamp. cbn [getattr]. lia.
Qed.

(** X22.  Exhaustion does not last.  When an NPC ends an hour with rest
    below 15, it was fed by force in that hour, and in the next hour it
    is put to sleep and ends with rest of 40 or more, whatever the
    collaborator answers. *)
Theorem exhaustion_is_cured (o : Collaborator) (i : nat) (npc : NPCState.t)
    (hour next : Z) :
  NPCState.rest (npc_hour o i npc hour) < 15 ->
  100 <= NPCState.food (npc_hour o i npc hour)
  /\ 40 <= NPCState.rest (npc_hour o i (npc_hour o i npc hour) next).
Proof.
  intros Hlow.
  split.
  - unfold npc_hour in *. apply decide_and_act_tired; [simpl; lia.. | exact Hlow].
  - assert (100 <= NPCState.food (npc_hour o i npc hour)) as Hfed.
    { unfold npc_hour in *. apply decide_and_act_tired; [simpl; lia.. | exact Hlow]. }
    unfold npc_hour at 1. apply decide_and_act_sleeps.
    + destruct (bool_decide (next = 0)); simpl; lia.
    + destruct (bool_decide (next = 0)); simpl; lia.
Qed.

Lemma exhaustion_is_cured_witness :
  NPCState.rest (npc_hour silent 0 (NPCState.new "npc2" "Alice" 50 14 3 "lazy") 1) < 15
  /\ 40 <= NPCState.rest
             (npc_hour silent 0
                (npc_hour silent 0 (NPCState.new "npc2" "Alice" 50 14 3 "lazy") 1) 2).
Proof.
  split; [reflexivity |].
  apply (exhaustion_is_cured silent 0 (NPCState.new "npc2" "Alice" 50 14 3 "lazy") 1 2).
  reflexivity.
Defined.

(** ** The six-hour report *)

Lemma statistics_due_spec (hour : Z) : statistics_due hour = true <-> hour mod 6 = 5.
Proof. unfold statistics_due. apply Z.eqb_eq. Qed.

Lemma six_hour_reports_upto (n : nat) :
  Z.of_nat (length (filter (fun hour => statistics_due hour = true)
                      (seqZ 0 (Z.of_nat n))))
  = Z.of_nat n / 6.
Proof.
  induction n as [|n IH]; [reflexivity |].
  rewrite seqZ_S, filter_app, length_app, Nat2Z.inj_add, IH, Z.add_0_l.
  rewrite filter_cons, filter_nil.
  destruct (decide (statistics_due (Z.of_nat n) = true)) as [Hdue | Hnot].
  - apply statistics_due_spec in Hdue. cbn [length].
    rewrite Nat2Z.inj_succ. Z.div_mod_to_equations. lia.
  - rewrite statistics_due_spec in Hnot. cbn [length].
    rewrite Nat2Z.inj_succ. Z.div_mod_to_equations. lia.
Qed.

(** X23.  In a day of hours hours the six-hour report is printed
    hours / 6 times (rounded down): after hours 5, 11, 17, ..., and
    never in a day shorter than six hours. *)
Theorem six_hour_reports_in_day (hours : Z) :
  0 <= hours ->
  Z.of_nat (length (filter (fun hour => statistics_due hour = true) (seqZ 0 hours)))
  = hours / 6.
Proof.
  intros Hh. rewrite <- (Z2Nat.id hours) at 1 2 by exact Hh.
  rewrite six_hour_reports_upto, Z2Nat.id by exact Hh. reflexivity.
Qed.

Lemma six_hour_reports_in_day_witness :
  filter (fun hour => statistics_due hour = true) (seqZ 0 24) = [5; 11; 17; 23]
  /\ Z.of_nat (length (filter (fun hour => statistics_due hour = true) (seqZ 0 24)))
     = 24 / 6.
Proof.
  split; [reflexivity |]. apply six_hour_reports_in_day. discriminate.
Defined.
